(** * Legacy reimbursement replica: scoring pipeline and calibrator

    A shallow embedding of [calculate_reimbursement.py] (module [Base]),
    [calculate_reimbursement_optimized.py] (module [Optimized]) and
    [train_parameters.py] (module [Train]).

    Number model.  Python's [int] and [float] values are embedded as exact
    rationals ([Q]): every finite binary64 value is a rational, and the
    arithmetic of the pipeline is carried out without rounding error.
    [math.log] is not rational-valued, so it is a parameter [math_log] of
    every definition that reaches it; only its domain check ([ValueError]
    on a non-positive argument) is modelled.  Exceptions are explicit: a
    computation returns [Ok v] or [Raise e].  The one place where binary64
    rounding decides the behaviour under study, the extraction of the
    receipt cents, is modelled a second time on the kernel's binary64
    floats in module [Binary64]. *)

From Stdlib Require Import ZArith QArith Qround Qabs List Lia Lqa Bool Floats.
From Stdlib Require Import Permutation Sorted.
Import ListNotations.

Open Scope Q_scope.

(** ** Python values and operations used by the three files *)

(** The exceptions the embedded code can raise. *)
Inductive exn : Type :=
| ZeroDivisionError   (* float or int division by zero *)
| ValueError          (* math domain error, or raised by [main] *)
| IndexError          (* list index out of range *)
| TypeError           (* subscripting [None], or a list with a tuple *)
| AttributeError      (* attribute of [None] *)
| StatisticsError.    (* [statistics.mean] of no data *)

Inductive result (A : Type) : Type :=
| Ok (a : A)
| Raise (e : exn).

Arguments Ok {A} a.
Arguments Raise {A} e.

Definition bind {A B : Type} (m : result A) (k : A -> result B) : result B :=
  match m with
  | Ok a => k a
  | Raise e => Raise e
  end.

Definition is_ok {A : Type} (m : result A) : bool :=
  match m with
  | Ok _ => true
  | Raise _ => false
  end.

Module Py.

(** Comparisons on numbers. *)
Definition Qltb (a b : Q) : bool := negb (Qle_bool b a).
Definition Qleb (a b : Q) : bool := Qle_bool a b.
Definition Qeqb (a b : Q) : bool := Qeq_bool a b.

(** [1 if c else 0]. *)
Definition flag (c : bool) : Q := if c then 1 else 0.

(** Truth value of a number in an [if]. *)
Definition truthy (x : Q) : bool := negb (Qeq_bool x 0).

(** [a / b]: true division. *)
Definition div (a b : Q) : result Q :=
  if Qeq_bool b 0 then Raise ZeroDivisionError else Ok (a / b).

(** [a % b] for a positive modulus: the result lies in [0, b). *)
Definition mod_pos (a b : Q) : Q := a - b * inject_Z (Qfloor (a / b)).

(** [round(x)]: the nearest integer, a tie going to the even one. *)
Definition round (x : Q) : Z :=
  let f := Qfloor x in
  let r := x - inject_Z f in
  if Qltb r (1 # 2) then f
  else if Qltb (1 # 2) r then (f + 1)%Z
  else if Z.even f then f else (f + 1)%Z.

(** [round(x, 2)]. *)
Definition round2 (x : Q) : Q := round (x * 100) # 100.

(** [min(a, b)] and [max(a, b)] of two arguments: the first one is kept
    unless the second is strictly smaller (larger). *)
Definition min (a b : Q) : Q := if Qltb b a then b else a.
Definition max (a b : Q) : Q := if Qltb a b then b else a.

(** [l[i]] for a non-negative index. *)
Definition getitem {A : Type} (l : list A) (i : nat) : result A :=
  match nth_error l i with
  | Some x => Ok x
  | None => Raise IndexError
  end.

(** [l[i] = v], on a copy of the list. *)
Fixpoint setitem {A : Type} (l : list A) (i : nat) (v : A) : result (list A) :=
  match l, i with
  | [], _ => Raise IndexError
  | _ :: t, O => Ok (v :: t)
  | h :: t, S j =>
      match setitem t j v with
      | Ok t' => Ok (h :: t')
      | Raise e => Raise e
      end
  end.

Definition sum (l : list Q) : Q := fold_left Qplus l 0.

(** [statistics.mean]. *)
Definition mean (l : list Q) : result Q :=
  match l with
  | [] => Raise StatisticsError
  | _ => Ok (sum l / inject_Z (Z.of_nat (length l)))
  end.

(** [float('inf')] next to the finite numbers. *)
Inductive number : Type :=
| Finite (q : Q)
| Infinity.

(** [a < b] with [b] possibly infinite. *)
Definition lt_number (a : Q) (b : number) : bool :=
  match b with
  | Finite q => Qltb a q
  | Infinity => true
  end.

(** A computable rational approximation of the natural logarithm, used to
    run the model on concrete inputs.  For [x >= 1] it writes
    [x = m * 2^k] with [1 <= m < 2] and sums the first terms of
    [ln m = 2 * atanh ((m - 1) / (m + 1))]. *)
Definition ln2 : Q := 6931471805599453 # 10000000000000000.

Definition atanh_series (t : Q) : Q :=
  let t2 := t * t in
  t * (1 + t2 * ((1 # 3) + t2 * ((1 # 5) + t2 * ((1 # 7) + t2 * (1 # 9))))).

Definition ln_approx (x : Q) : Q :=
  let k := Z.log2 (Qfloor x) in
  let m := Qred (x / inject_Z (2 ^ k)) in
  Qred (inject_Z k * ln2 + 2 * atanh_series ((m - 1) / (m + 1))).

End Py.

Notation "x <- m ;; k" := (bind m (fun x => k))
  (at level 61, m at next level, right associativity).

(** ** [class ModelConfig]

    Both scoring files declare the same attributes; they differ in the
    literals their [__init__] assigns. *)
Record ModelConfig : Type := {
  base_per_diem : Q;
  mileage_rates : list Q;
  receipt_rates : list Q;
  cluster_multipliers : list Q;
  vacation_bonus_multiplier : Q;
  vacation_base_multiplier : Q;
  five_day_multiplier : Q;
  receipt_threshold_multiplier : Q;
  efficiency_threshold_multiplier : Q;
  miles_threshold_multiplier : Q;
  interaction_coeff : Q;
  log_bonus_coeff : Q;
  bug_base_bonus : Q;
  bug_multiplier : Q
}.

(** What [print] and [sys.exit] leave behind when [main] returns. *)
Inductive outcome : Type :=
| Printed (reimbursement : Q)     (* the amount on stdout, exit status 0 *)
| Usage                           (* usage line, exit status 1 *)
| InvalidInputParameters          (* "Error: Invalid input parameters", 1 *)
| OtherError (e : exn).           (* "Error: " ++ str(e), exit status 1 *)

(** One command-line argument, seen through [int(...)] and [float(...)]:
    [None] where the conversion raises [ValueError]. *)
Record argument : Type := {
  int_value : option Z;
  float_value : option Q
}.

Definition of_option {A : Type} (o : option A) : result A :=
  match o with
  | Some a => Ok a
  | None => Raise ValueError
  end.

(** ** [calculate_reimbursement.py] *)

Module Base.

(** [ModelConfig.__init__] *)
Definition ModelConfig__init__ : ModelConfig := {|
  base_per_diem := 45.51959;
  mileage_rates := [0.78707; 0.45114; 0.20083];
  receipt_rates := [0.39998; 0.30454; 0.43686; 0.12188];
  cluster_multipliers := [1.14757; 1.11176; 1.20275; 1.19116; 1.07688; 1.21401];
  vacation_bonus_multiplier := 1.04678;
  vacation_base_multiplier := 1.07235;
  five_day_multiplier := 1.08250;
  receipt_threshold_multiplier := 1.19667;
  efficiency_threshold_multiplier := 1.01898;
  miles_threshold_multiplier := 1.02133;
  interaction_coeff := 0.00055520;
  log_bonus_coeff := 5.12776;
  bug_base_bonus := 20.69937;
  bug_multiplier := 0.00617
|}.

(** [class LegacyReimbursementSystem].  [cluster_models], [kmeans_model]
    and [feature_scaler] are set to empty values by [__init__] and read
    only by the trained branch of [determine_cluster], which fails before
    it reaches them. *)
Record LegacyReimbursementSystem : Type := {
  is_trained : bool;
  config : ModelConfig
}.

Definition LegacyReimbursementSystem__init__ : LegacyReimbursementSystem := {|
  is_trained := false;
  config := ModelConfig__init__
|}.

(** [system.config = c] *)
Definition set_config (system : LegacyReimbursementSystem) (c : ModelConfig)
  : LegacyReimbursementSystem :=
  {| is_trained := is_trained system; config := c |}.

Section Pipeline.

Variable math_log : Q -> Q.

(** [math.log(x)] *)
Definition log (x : Q) : result Q :=
  if Py.Qltb 0 x then Ok (math_log x) else Raise ValueError.

Definition engineer_features
  (trip_duration_days miles_traveled total_receipts_amount : Q)
  : result (list (list Q)) :=
  (* Basic rate features *)
  receipts_per_day <- Py.div total_receipts_amount trip_duration_days ;;
  receipts_per_mile <-
    (if Py.Qltb 0 miles_traveled
     then Py.div total_receipts_amount miles_traveled else Ok 0) ;;
  miles_per_day <- Py.div miles_traveled trip_duration_days ;;
  (* Efficiency-based features *)
  let efficiency_category : Q :=
    if Py.Qltb miles_per_day 100 then 0
    else if Py.Qltb miles_per_day 180 then 1
    else if Py.Qleb miles_per_day 220 then 2
    else if Py.Qleb miles_per_day 300 then 3
    else 4 in
  let efficiency_bonus_zone :=
    Py.flag (Py.Qleb 180 miles_per_day && Py.Qleb miles_per_day 220) in
  let efficiency_penalty_zone := Py.flag (Py.Qltb 300 miles_per_day) in
  (* Spending pattern features *)
  let spending_category : Q :=
    if Py.Qltb receipts_per_day 75 then 0
    else if Py.Qleb receipts_per_day 120 then 1
    else 2 in
  let very_low_receipts := Py.flag (Py.Qltb total_receipts_amount 50) in
  let optimal_receipt_range :=
    Py.flag (Py.Qleb 600 total_receipts_amount
             && Py.Qleb total_receipts_amount 800) in
  let high_spending_flag := Py.flag (Py.Qltb 1000 total_receipts_amount) in
  (* The rounding bug *)
  let receipt_cents := Py.mod_pos (total_receipts_amount * 100) 100 in
  let receipt_ends_49_99 :=
    Py.flag (Py.Qeqb receipt_cents 49 || Py.Qeqb receipt_cents 99) in
  (* Trip length features *)
  let is_5_day_trip := Py.flag (Py.Qeqb trip_duration_days 5) in
  let is_sweet_spot_duration :=
    Py.flag (Py.Qleb 4 trip_duration_days && Py.Qleb trip_duration_days 6) in
  let duration_penalty_zone :=
    Py.flag (Py.Qltb trip_duration_days 2 || Py.Qltb 10 trip_duration_days) in
  let very_short_trip := Py.flag (Py.Qeqb trip_duration_days 1) in
  let very_long_trip := Py.flag (Py.Qleb 8 trip_duration_days) in
  (* Combination features *)
  let sweet_spot_combo :=
    Py.flag (Py.Qeqb trip_duration_days 5 && Py.Qleb 180 miles_per_day
             && Py.Qltb receipts_per_day 100) in
  let vacation_penalty :=
    Py.flag (Py.Qleb 8 trip_duration_days && Py.Qltb 120 receipts_per_day) in
  let high_mile_low_spend :=
    Py.flag (Py.Qltb 200 miles_per_day && Py.Qltb receipts_per_day 80) in
  let low_mile_high_spend :=
    Py.flag (Py.Qltb miles_per_day 100 && Py.Qltb 100 receipts_per_day) in
  (* Interaction features *)
  let efficiency_spending_interaction := miles_per_day * receipts_per_day in
  let duration_efficiency_interaction := trip_duration_days * miles_per_day in
  let duration_spending_interaction := trip_duration_days * receipts_per_day in
  (* Threshold features *)
  let short_high_efficiency :=
    Py.flag (Py.Qleb trip_duration_days 3 && Py.Qltb 150 miles_per_day) in
  let long_low_efficiency :=
    Py.flag (Py.Qleb 7 trip_duration_days && Py.Qltb miles_per_day 100) in
  let medium_balanced :=
    Py.flag (Py.Qleb 4 trip_duration_days && Py.Qleb trip_duration_days 6
             && Py.Qleb 100 miles_per_day && Py.Qleb miles_per_day 200
             && Py.Qleb 50 receipts_per_day && Py.Qleb receipts_per_day 150) in
  (* Mathematical transformations *)
  log_trip_duration <- log (trip_duration_days + 1) ;;
  log_miles_traveled <- log (miles_traveled + 1) ;;
  log_receipts <- log (total_receipts_amount + 1) ;;
  let trip_duration_squared := trip_duration_days ^ 2 in
  let miles_traveled_squared := miles_traveled ^ 2 in
  let receipts_squared := total_receipts_amount ^ 2 in
  let trip_duration_cubed := trip_duration_days ^ 3 in
  (* Ratio and efficiency features *)
  total_efficiency <-
    Py.div (miles_traveled * trip_duration_days) (total_receipts_amount + 1) ;;
  cost_per_mile <-
    (if Py.Qltb 0 miles_traveled
     then Py.div total_receipts_amount miles_traveled else Ok 0) ;;
  productivity_score <-
    Py.div miles_traveled (trip_duration_days * (total_receipts_amount + 1)) ;;
  let features := [
    trip_duration_days; miles_traveled; total_receipts_amount;
    receipts_per_day; receipts_per_mile; miles_per_day;
    efficiency_bonus_zone; efficiency_penalty_zone;
    very_low_receipts; optimal_receipt_range; high_spending_flag;
    receipt_ends_49_99;
    is_5_day_trip; is_sweet_spot_duration; duration_penalty_zone;
    very_short_trip; very_long_trip;
    sweet_spot_combo; vacation_penalty; high_mile_low_spend; low_mile_high_spend;
    efficiency_spending_interaction; duration_efficiency_interaction;
    duration_spending_interaction;
    short_high_efficiency; long_low_efficiency; medium_balanced;
    trip_duration_squared; miles_traveled_squared; receipts_squared;
    trip_duration_cubed;
    log_trip_duration; log_miles_traveled; log_receipts;
    total_efficiency; cost_per_mile; productivity_score
  ] in
  Ok [features].

(** [features[0][k]] *)
Definition feature (features : list (list Q)) (k : nat) : result Q :=
  row <- Py.getitem features 0 ;;
  Py.getitem row k.

Definition determine_cluster (self : LegacyReimbursementSystem)
  (features : list (list Q)) : result nat :=
  if negb (is_trained self) then
    trip_duration <- feature features 0 ;;
    miles_traveled <- feature features 1 ;;
    receipts <- feature features 2 ;;
    miles_per_day <- feature features 5 ;;
    receipts_per_day <- feature features 3 ;;
    if Py.Qleb trip_duration 1.5 && Py.Qltb 500 miles_per_day then Ok 0%nat
    else if Py.Qltb 8 trip_duration && Py.Qltb miles_per_day 50 then Ok 1%nat
    else if Py.Qleb 3 trip_duration && Py.Qleb trip_duration 5
            && Py.Qltb 1500 receipts then Ok 2%nat
    else if Py.Qleb 4 trip_duration && Py.Qleb trip_duration 7
            && Py.Qltb 150 miles_per_day && Py.Qltb receipts 800 then Ok 3%nat
    else if Py.Qltb 8 trip_duration && Py.Qltb 1200 receipts then Ok 4%nat
    else Ok 5%nat
  else
    (* [features[:, [0, 1, 2, 5, 3]]]: a list is subscripted with a tuple *)
    Raise TypeError.

Definition apply_rounding_bug (self : LegacyReimbursementSystem)
  (amount receipt_ends_49_99 : Q) : Q :=
  if Py.truthy receipt_ends_49_99 then
    let bug_bonus :=
      bug_base_bonus (config self) + amount * bug_multiplier (config self) in
    amount + bug_bonus
  else amount.

(** The local [mileage_reimbursement] of [calculate_base_reimbursement]. *)
Definition mileage_reimbursement (self : LegacyReimbursementSystem)
  (miles_traveled : Q) : result Q :=
  let rates := mileage_rates (config self) in
  if Py.Qleb miles_traveled 100 then
    r0 <- Py.getitem rates 0 ;;
    Ok (miles_traveled * r0)
  else if Py.Qleb miles_traveled 500 then
    r0 <- Py.getitem rates 0 ;;
    r1 <- Py.getitem rates 1 ;;
    Ok (100 * r0 + (miles_traveled - 100) * r1)
  else
    r0 <- Py.getitem rates 0 ;;
    r1 <- Py.getitem rates 1 ;;
    r2 <- Py.getitem rates 2 ;;
    Ok (100 * r0 + 400 * r1 + (miles_traveled - 500) * r2).

(** The local [receipt_reimbursement] of [calculate_base_reimbursement]:
    flat dollar amounts 15, 180 and 300 at the tier boundaries. *)
Definition receipt_reimbursement (self : LegacyReimbursementSystem)
  (total_receipts_amount : Q) : result Q :=
  let rates := receipt_rates (config self) in
  if Py.Qleb total_receipts_amount 50 then
    r0 <- Py.getitem rates 0 ;;
    Ok (total_receipts_amount * r0)
  else if Py.Qleb total_receipts_amount 500 then
    r1 <- Py.getitem rates 1 ;;
    Ok (15 + (total_receipts_amount - 50) * r1)
  else if Py.Qleb total_receipts_amount 1500 then
    r2 <- Py.getitem rates 2 ;;
    Ok (15 + 180 + (total_receipts_amount - 500) * r2)
  else
    r3 <- Py.getitem rates 3 ;;
    Ok (15 + 180 + 300 + (total_receipts_amount - 1500) * r3).

Definition calculate_base_reimbursement (self : LegacyReimbursementSystem)
  (trip_duration_days miles_traveled total_receipts_amount : Q) : result Q :=
  let base_per_diem := base_per_diem (config self) * trip_duration_days in
  mileage_reimbursement <- mileage_reimbursement self miles_traveled ;;
  receipt_reimbursement <- receipt_reimbursement self total_receipts_amount ;;
  Ok (base_per_diem + mileage_reimbursement + receipt_reimbursement).

Definition apply_cluster_adjustments (self : LegacyReimbursementSystem)
  (base_amount : Q) (cluster : nat) (features : list (list Q)) : result Q :=
  vacation_penalty <- feature features 18 ;;
  if Nat.eqb cluster 4 && Py.truthy vacation_penalty then
    Ok (base_amount * vacation_bonus_multiplier (config self))
  else if Nat.eqb cluster 4 then
    Ok (base_amount * vacation_base_multiplier (config self))
  else
    m <- Py.getitem (cluster_multipliers (config self)) cluster ;;
    Ok (base_amount * m).

Definition apply_threshold_effects (self : LegacyReimbursementSystem)
  (amount : Q) (features : list (list Q)) : result Q :=
  trip_duration <- feature features 0 ;;
  miles_traveled <- feature features 1 ;;
  total_receipts <- feature features 2 ;;
  miles_per_day <- feature features 5 ;;
  is_5_day_trip <- feature features 12 ;;
  let amount :=
    if Py.truthy is_5_day_trip
    then amount * five_day_multiplier (config self) else amount in
  let amount :=
    if Py.Qltb 660.54 total_receipts
    then amount * receipt_threshold_multiplier (config self) else amount in
  let amount :=
    if Py.Qltb 187.01 miles_per_day
    then amount * efficiency_threshold_multiplier (config self) else amount in
  let amount :=
    if Py.Qltb 473.8 miles_traveled
    then amount * miles_threshold_multiplier (config self) else amount in
  Ok amount.

Definition calculate_reimbursement (self : LegacyReimbursementSystem)
  (trip_duration_days miles_traveled total_receipts_amount : Q) : result Q :=
  features <-
    engineer_features trip_duration_days miles_traveled total_receipts_amount ;;
  cluster <- determine_cluster self features ;;
  base_amount <-
    calculate_base_reimbursement self
      trip_duration_days miles_traveled total_receipts_amount ;;
  adjusted_amount <- apply_cluster_adjustments self base_amount cluster features ;;
  threshold_adjusted <- apply_threshold_effects self adjusted_amount features ;;
  receipt_ends_49_99 <- feature features 11 ;;
  let final_amount := apply_rounding_bug self threshold_adjusted receipt_ends_49_99 in
  duration_spending_interaction <- feature features 23 ;;
  (* position 32 of the vector holds [log_miles_traveled] *)
  log_receipts <- feature features 32 ;;
  let interaction_bonus :=
    duration_spending_interaction * interaction_coeff (config self) in
  let log_bonus := log_receipts * log_bonus_coeff (config self) in
  let final_amount := final_amount + (interaction_bonus + log_bonus) in
  let final_amount := Py.max 50 (Py.min final_amount 5000) in
  Ok (Py.round2 final_amount).

(** [main], from the arguments of the command line ([sys.argv]). *)
Definition main (argv : list argument) : outcome :=
  match argv with
  | [_; a1; a2; a3] =>
      let body : result Q :=
        trip_duration_days <- of_option (int_value a1) ;;
        miles_traveled <- of_option (float_value a2) ;;
        total_receipts_amount <- of_option (float_value a3) ;;
        if (trip_duration_days <=? 0)%Z || Py.Qltb miles_traveled 0
           || Py.Qltb total_receipts_amount 0
        then Raise ValueError
        else
          let system := LegacyReimbursementSystem__init__ in
          calculate_reimbursement system (inject_Z trip_duration_days)
            miles_traveled total_receipts_amount
      in
      match body with
      | Ok reimbursement => Printed reimbursement
      | Raise ValueError | Raise IndexError => InvalidInputParameters
      | Raise e => OtherError e
      end
  | _ => Usage
  end.

End Pipeline.

End Base.

(** ** [calculate_reimbursement_optimized.py] *)

Module Optimized.

(** [ModelConfig.__init__] *)
Definition ModelConfig__init__ : ModelConfig := {|
  base_per_diem := 45.5195880490612;
  mileage_rates := [0.787071175593883; 0.45114227601327; 0.200831651920261];
  receipt_rates :=
    [0.399975746217208; 0.3045420665708; 0.436856841815577; 0.121882355942393];
  cluster_multipliers :=
    [1.14756663634639; 1.11176444876928; 1.20275399349877;
     1.19116480573546; 1.07688362098627; 1.2140054738624];
  vacation_bonus_multiplier := 1.04678047616035;
  vacation_base_multiplier := 1.07234985943884;
  five_day_multiplier := 1.08250167328268;
  receipt_threshold_multiplier := 1.19666525936238;
  efficiency_threshold_multiplier := 1.01898035206799;
  miles_threshold_multiplier := 1.02133465968143;
  interaction_coeff := 0.000555204802994334;
  log_bonus_coeff := 5.12776389976777;
  bug_base_bonus := 20.6993690179661;
  bug_multiplier := 0.00616844543255866
|}.

(** [class LegacyReimbursementSystem] *)
Record LegacyReimbursementSystem : Type := {
  config : ModelConfig
}.

Definition LegacyReimbursementSystem__init__ : LegacyReimbursementSystem := {|
  config := ModelConfig__init__
|}.

Section Pipeline.

Variable math_log : Q -> Q.

(** [math.log(x)] *)
Definition log (x : Q) : result Q :=
  if Py.Qltb 0 x then Ok (math_log x) else Raise ValueError.

Definition engineer_features
  (trip_duration_days miles_traveled total_receipts_amount : Q)
  : result (list (list Q)) :=
  (* Basic rate features *)
  receipts_per_day <- Py.div total_receipts_amount trip_duration_days ;;
  receipts_per_mile <-
    (if Py.Qltb 0 miles_traveled
     then Py.div total_receipts_amount miles_traveled else Ok 0) ;;
  miles_per_day <- Py.div miles_traveled trip_duration_days ;;
  (* Efficiency-based features *)
  let efficiency_bonus_zone :=
    Py.flag (Py.Qleb 180 miles_per_day && Py.Qleb miles_per_day 220) in
  let efficiency_penalty_zone := Py.flag (Py.Qltb 300 miles_per_day) in
  (* Spending pattern features *)
  let very_low_receipts := Py.flag (Py.Qltb total_receipts_amount 50) in
  let optimal_receipt_range :=
    Py.flag (Py.Qleb 600 total_receipts_amount
             && Py.Qleb total_receipts_amount 800) in
  let high_spending_flag := Py.flag (Py.Qltb 1000 total_receipts_amount) in
  (* The rounding bug *)
  let receipt_cents := Py.round (Py.mod_pos (total_receipts_amount * 100) 100) in
  let receipt_ends_49_99 :=
    Py.flag ((receipt_cents =? 49)%Z || (receipt_cents =? 99)%Z) in
  (* Trip length features *)
  let is_5_day_trip := Py.flag (Py.Qeqb trip_duration_days 5) in
  let is_sweet_spot_duration :=
    Py.flag (Py.Qleb 4 trip_duration_days && Py.Qleb trip_duration_days 6) in
  let duration_penalty_zone :=
    Py.flag (Py.Qltb trip_duration_days 2 || Py.Qltb 10 trip_duration_days) in
  let very_short_trip := Py.flag (Py.Qeqb trip_duration_days 1) in
  let very_long_trip := Py.flag (Py.Qleb 8 trip_duration_days) in
  (* Combination features *)
  let sweet_spot_combo :=
    Py.flag (Py.Qeqb trip_duration_days 5 && Py.Qleb 180 miles_per_day
             && Py.Qltb receipts_per_day 100) in
  let vacation_penalty :=
    Py.flag (Py.Qleb 8 trip_duration_days && Py.Qltb 120 receipts_per_day) in
  let high_mile_low_spend :=
    Py.flag (Py.Qltb 200 miles_per_day && Py.Qltb receipts_per_day 80) in
  let low_mile_high_spend :=
    Py.flag (Py.Qltb miles_per_day 100 && Py.Qltb 100 receipts_per_day) in
  (* Interaction features *)
  let efficiency_spending_interaction := miles_per_day * receipts_per_day in
  let duration_efficiency_interaction := trip_duration_days * miles_per_day in
  let duration_spending_interaction := trip_duration_days * receipts_per_day in
  (* Threshold features *)
  let short_high_efficiency :=
    Py.flag (Py.Qleb trip_duration_days 3 && Py.Qltb 150 miles_per_day) in
  let long_low_efficiency :=
    Py.flag (Py.Qleb 7 trip_duration_days && Py.Qltb miles_per_day 100) in
  let medium_balanced :=
    Py.flag (Py.Qleb 4 trip_duration_days && Py.Qleb trip_duration_days 6
             && Py.Qleb 100 miles_per_day && Py.Qleb miles_per_day 200
             && Py.Qleb 50 receipts_per_day && Py.Qleb receipts_per_day 150) in
  (* Mathematical transformations *)
  log_trip_duration <- log (trip_duration_days + 1) ;;
  log_miles_traveled <- log (miles_traveled + 1) ;;
  log_receipts <- log (total_receipts_amount + 1) ;;
  let trip_duration_squared := trip_duration_days ^ 2 in
  let miles_traveled_squared := miles_traveled ^ 2 in
  let receipts_squared := total_receipts_amount ^ 2 in
  let trip_duration_cubed := trip_duration_days ^ 3 in
  (* Ratio and efficiency features *)
  total_efficiency <-
    Py.div (miles_traveled * trip_duration_days) (total_receipts_amount + 1) ;;
  cost_per_mile <-
    (if Py.Qltb 0 miles_traveled
     then Py.div total_receipts_amount miles_traveled else Ok 0) ;;
  productivity_score <-
    Py.div miles_traveled (trip_duration_days * (total_receipts_amount + 1)) ;;
  let features := [
    trip_duration_days; miles_traveled; total_receipts_amount;
    receipts_per_day; receipts_per_mile; miles_per_day;
    efficiency_bonus_zone; efficiency_penalty_zone;
    very_low_receipts; optimal_receipt_range; high_spending_flag;
    receipt_ends_49_99;
    is_5_day_trip; is_sweet_spot_duration; duration_penalty_zone;
    very_short_trip; very_long_trip;
    sweet_spot_combo; vacation_penalty; high_mile_low_spend; low_mile_high_spend;
    efficiency_spending_interaction; duration_efficiency_interaction;
    duration_spending_interaction;
    short_high_efficiency; long_low_efficiency; medium_balanced;
    trip_duration_squared; miles_traveled_squared; receipts_squared;
    trip_duration_cubed;
    log_trip_duration; log_miles_traveled; log_receipts;
    total_efficiency; cost_per_mile; productivity_score
  ] in
  Ok [features].

(** [features[0][k]] *)
Definition feature (features : list (list Q)) (k : nat) : result Q :=
  row <- Py.getitem features 0 ;;
  Py.getitem row k.

Definition determine_cluster (self : LegacyReimbursementSystem)
  (features : list (list Q)) : result nat :=
  trip_duration <- feature features 0 ;;
  miles_traveled <- feature features 1 ;;
  receipts <- feature features 2 ;;
  miles_per_day <- feature features 5 ;;
  receipts_per_day <- feature features 3 ;;
  if Py.Qleb trip_duration 1.5 && Py.Qltb 500 miles_per_day then Ok 0%nat
  else if Py.Qltb 8 trip_duration && Py.Qltb miles_per_day 50 then Ok 1%nat
  else if Py.Qleb 3 trip_duration && Py.Qleb trip_duration 5
          && Py.Qltb 1500 receipts then Ok 2%nat
  else if Py.Qleb 4 trip_duration && Py.Qleb trip_duration 7
          && Py.Qltb 150 miles_per_day && Py.Qltb receipts 800 then Ok 3%nat
  else if Py.Qltb 8 trip_duration && Py.Qltb 1200 receipts then Ok 4%nat
  else Ok 5%nat.

Definition apply_rounding_bug (self : LegacyReimbursementSystem)
  (amount receipt_ends_49_99 : Q) : Q :=
  if Py.truthy receipt_ends_49_99 then
    let bug_bonus :=
      bug_base_bonus (config self) + amount * bug_multiplier (config self) in
    amount + bug_bonus
  else amount.

(** The local [mileage_reimbursement] of [calculate_base_reimbursement]. *)
Definition mileage_reimbursement (self : LegacyReimbursementSystem)
  (miles_traveled : Q) : result Q :=
  let rates := mileage_rates (config self) in
  if Py.Qleb miles_traveled 100 then
    r0 <- Py.getitem rates 0 ;;
    Ok (miles_traveled * r0)
  else if Py.Qleb miles_traveled 500 then
    r0 <- Py.getitem rates 0 ;;
    r1 <- Py.getitem rates 1 ;;
    Ok (100 * r0 + (miles_traveled - 100) * r1)
  else
    r0 <- Py.getitem rates 0 ;;
    r1 <- Py.getitem rates 1 ;;
    r2 <- Py.getitem rates 2 ;;
    Ok (100 * r0 + 400 * r1 + (miles_traveled - 500) * r2).

(** The local [receipt_reimbursement] of [calculate_base_reimbursement]:
    each tier starts from the previous tiers taken at their own rates. *)
Definition receipt_reimbursement (self : LegacyReimbursementSystem)
  (total_receipts_amount : Q) : result Q :=
  let rates := receipt_rates (config self) in
  if Py.Qleb total_receipts_amount 50 then
    r0 <- Py.getitem rates 0 ;;
    Ok (total_receipts_amount * r0)
  else if Py.Qleb total_receipts_amount 500 then
    r0 <- Py.getitem rates 0 ;;
    r1 <- Py.getitem rates 1 ;;
    Ok (50 * r0 + (total_receipts_amount - 50) * r1)
  else if Py.Qleb total_receipts_amount 1500 then
    r0 <- Py.getitem rates 0 ;;
    r1 <- Py.getitem rates 1 ;;
    r2 <- Py.getitem rates 2 ;;
    Ok (50 * r0 + 450 * r1 + (total_receipts_amount - 500) * r2)
  else
    r0 <- Py.getitem rates 0 ;;
    r1 <- Py.getitem rates 1 ;;
    r2 <- Py.getitem rates 2 ;;
    r3 <- Py.getitem rates 3 ;;
    Ok (50 * r0 + 450 * r1 + 1000 * r2 + (total_receipts_amount - 1500) * r3).

Definition calculate_base_reimbursement (self : LegacyReimbursementSystem)
  (trip_duration_days miles_traveled total_receipts_amount : Q) : result Q :=
  let base_per_diem := base_per_diem (config self) * trip_duration_days in
  mileage_reimbursement <- mileage_reimbursement self miles_traveled ;;
  receipt_reimbursement <- receipt_reimbursement self total_receipts_amount ;;
  Ok (base_per_diem + mileage_reimbursement + receipt_reimbursement).

Definition apply_cluster_adjustments (self : LegacyReimbursementSystem)
  (base_amount : Q) (cluster : nat) (features : list (list Q)) : result Q :=
  vacation_penalty <- feature features 18 ;;
  if Nat.eqb cluster 4 && Py.truthy vacation_penalty then
    Ok (base_amount * vacation_bonus_multiplier (config self))
  else if Nat.eqb cluster 4 then
    Ok (base_amount * vacation_base_multiplier (config self))
  else
    m <- Py.getitem (cluster_multipliers (config self)) cluster ;;
    Ok (base_amount * m).

Definition apply_threshold_effects (self : LegacyReimbursementSystem)
  (amount : Q) (features : list (list Q)) : result Q :=
  trip_duration <- feature features 0 ;;
  miles_traveled <- feature features 1 ;;
  total_receipts <- feature features 2 ;;
  miles_per_day <- feature features 5 ;;
  is_5_day_trip <- feature features 12 ;;
  high_spending_flag <- feature features 10 ;;
  let amount :=
    if Py.truthy is_5_day_trip
    then amount * five_day_multiplier (config self) else amount in
  let amount :=
    if Py.Qltb 660.54 total_receipts
    then amount * receipt_threshold_multiplier (config self) else amount in
  let amount :=
    if Py.Qltb 187.01 miles_per_day
    then amount * efficiency_threshold_multiplier (config self) else amount in
  let amount :=
    if Py.Qltb 473.8 miles_traveled
    then amount * miles_threshold_multiplier (config self) else amount in
  Ok amount.

Definition calculate_reimbursement (self : LegacyReimbursementSystem)
  (trip_duration_days miles_traveled total_receipts_amount : Q) : result Q :=
  features <-
    engineer_features trip_duration_days miles_traveled total_receipts_amount ;;
  cluster <- determine_cluster self features ;;
  base_amount <-
    calculate_base_reimbursement self
      trip_duration_days miles_traveled total_receipts_amount ;;
  adjusted_amount <- apply_cluster_adjustments self base_amount cluster features ;;
  threshold_adjusted <- apply_threshold_effects self adjusted_amount features ;;
  receipt_ends_49_99 <- feature features 11 ;;
  let final_amount := apply_rounding_bug self threshold_adjusted receipt_ends_49_99 in
  duration_spending_interaction <- feature features 23 ;;
  (* position 32 of the vector holds [log_miles_traveled] *)
  log_receipts <- feature features 32 ;;
  let interaction_bonus :=
    duration_spending_interaction * interaction_coeff (config self) in
  let log_bonus := log_receipts * log_bonus_coeff (config self) in
  let final_amount := final_amount + (interaction_bonus + log_bonus) in
  let final_amount := Py.max 50 (Py.min final_amount 5000) in
  Ok (Py.round2 final_amount).

(** [main], from the arguments of the command line ([sys.argv]). *)
Definition main (argv : list argument) : outcome :=
  match argv with
  | [_; a1; a2; a3] =>
      let body : result Q :=
        trip_duration_days <- of_option (int_value a1) ;;
        miles_traveled <- of_option (float_value a2) ;;
        total_receipts_amount <- of_option (float_value a3) ;;
        if (trip_duration_days <=? 0)%Z || Py.Qltb miles_traveled 0
           || Py.Qltb total_receipts_amount 0
        then Raise ValueError
        else
          let system := LegacyReimbursementSystem__init__ in
          calculate_reimbursement system (inject_Z trip_duration_days)
            miles_traveled total_receipts_amount
      in
      match body with
      | Ok reimbursement => Printed reimbursement
      | Raise ValueError | Raise IndexError => InvalidInputParameters
      | Raise e => OtherError e
      end
  | _ => Usage
  end.

End Pipeline.

End Optimized.

(** ** [train_parameters.py] *)

Module Train.

(** One element of [inputs]: the list [[duration, miles, receipts]] that
    [load_training_data] builds for a case. *)
Definition input : Type := (Q * Q * Q)%type.

(** One element of [case_errors]:
    [(i, error, inp, target, prediction)]. *)
Record case_error : Type := {
  case_idx : nat;
  error : Q;
  inp : input;
  target : Q;
  prediction : Q
}.

(** [for x in l: body], threading the variables the body assigns. *)
Fixpoint for_each {S A : Type} (body : S -> A -> result S) (l : list A) (st : S)
  : result S :=
  match l with
  | [] => Ok st
  | x :: rest => st' <- body st x ;; for_each body rest st'
  end.

(** [enumerate(zip(inputs, targets))] *)
Fixpoint enumerate_from {A : Type} (i : nat) (l : list A) : list (nat * A) :=
  match l with
  | [] => []
  | x :: rest => (i, x) :: enumerate_from (S i) rest
  end.

(** [itertools.product] of the pools: the last pool advances fastest. *)
Fixpoint product (pools : list (list Q)) : list (list Q) :=
  match pools with
  | [] => [[]]
  | pool :: rest => flat_map (fun x => map (cons x) (product rest)) pool
  end.

(** [case_errors.sort(key=lambda x: x[1], reverse=True)]: descending by
    error, cases of equal error staying in their original order. *)
Fixpoint insert_case (c : case_error) (l : list case_error) : list case_error :=
  match l with
  | [] => [c]
  | h :: t =>
      if Py.Qltb (error c) (error h) then h :: insert_case c t else c :: h :: t
  end.

Definition sort_by_error_reverse (l : list case_error) : list case_error :=
  fold_right insert_case [] l.

(** The values of [param_ranges], in the order of its keys. *)
Definition param_ranges : list (list Q) := [
  [1.0; 1.1; 1.2; 1.3; 1.4; 1.5];       (* cluster_3_multiplier *)
  [1.02; 1.03; 1.05; 1.07; 1.10];       (* efficiency_threshold_multiplier *)
  [1.5; 2.0; 2.5; 3.0; 3.5];            (* log_bonus_coeff *)
  [45; 50; 55; 60];                     (* base_per_diem *)
  [0.25; 0.30; 0.35; 0.40]              (* mileage_rate_high *)
].

(** The variables the sweep of [optimize_parameters] keeps. *)
Record best : Type := {
  best_error : Py.number;
  best_config : option ModelConfig;
  best_params : option (list Q)
}.

(** The test configuration built in the body of the sweep. *)
Definition test_config (params : list Q) : result ModelConfig :=
  let config := Base.ModelConfig__init__ in
  p0 <- Py.getitem params 0 ;;
  multipliers <- Py.setitem (cluster_multipliers config) 3 p0 ;;
  p1 <- Py.getitem params 1 ;;
  p2 <- Py.getitem params 2 ;;
  p3 <- Py.getitem params 3 ;;
  p4 <- Py.getitem params 4 ;;
  rates <- Py.setitem (mileage_rates config) 2 p4 ;;
  Ok {|
    base_per_diem := p3;
    mileage_rates := rates;
    receipt_rates := receipt_rates config;
    cluster_multipliers := multipliers;
    vacation_bonus_multiplier := vacation_bonus_multiplier config;
    vacation_base_multiplier := vacation_base_multiplier config;
    five_day_multiplier := five_day_multiplier config;
    receipt_threshold_multiplier := receipt_threshold_multiplier config;
    efficiency_threshold_multiplier := p1;
    miles_threshold_multiplier := miles_threshold_multiplier config;
    interaction_coeff := interaction_coeff config;
    log_bonus_coeff := p2;
    bug_base_bonus := bug_base_bonus config;
    bug_multiplier := bug_multiplier config
  |}.

Section Calibrator.

Variable math_log : Q -> Q.

(** The [try] ... [except Exception] of [evaluate_config], for one record. *)
Definition record_error (system : Base.LegacyReimbursementSystem)
  (inp : input) (target : Q) : Q :=
  let '(duration, miles, receipts) := inp in
  match Base.calculate_reimbursement math_log system duration miles receipts with
  | Ok prediction => Qabs (prediction - target)
  | Raise _ => 1000
  end.

Definition evaluate_config (config : ModelConfig)
  (inputs : list input) (targets : list Q) : result Q :=
  let system := Base.set_config Base.LegacyReimbursementSystem__init__ config in
  let errors :=
    map (fun '(inp, target) => record_error system inp target)
        (combine inputs targets) in
  Py.mean errors.

Definition analyze_high_error_cases (inputs : list input) (targets : list Q)
  (current_config : ModelConfig) : list case_error :=
  let system :=
    Base.set_config Base.LegacyReimbursementSystem__init__ current_config in
  let case_errors :=
    map (fun '(i, (inp, target)) =>
           let '(duration, miles, receipts) := inp in
           match Base.calculate_reimbursement math_log system
                   duration miles receipts with
           | Ok prediction =>
               {| case_idx := i; error := Qabs (prediction - target);
                  inp := inp; target := target; prediction := prediction |}
           | Raise _ =>
               {| case_idx := i; error := 1000;
                  inp := inp; target := target; prediction := 0 |}
           end)
        (enumerate_from 0 (combine inputs targets)) in
  firstn 10 (sort_by_error_reverse case_errors).

(** The body of [for params in product(...)]. *)
Definition sweep_step (inputs : list input) (targets : list Q)
  (st : best) (params : list Q) : result best :=
  config <- test_config params ;;
  error <- evaluate_config config inputs targets ;;
  if Py.lt_number error (best_error st) then
    Ok {| best_error := Py.Finite error;
          best_config := Some config;
          best_params := Some params |}
  else Ok st.

(** The sweep: [best_error = float('inf')], [best_config = None],
    [best_params = None], then the loop over the grid. *)
Definition sweep (inputs : list input) (targets : list Q) : result best :=
  for_each (sweep_step inputs targets) (product param_ranges)
    {| best_error := Py.Infinity; best_config := None; best_params := None |}.

(** [optimize_parameters], from the loaded [inputs] and [targets].  Of
    its diagnostics only the expressions that can raise are kept. *)
Definition optimize_parameters (inputs : list input) (targets : list Q)
  : result ModelConfig :=
  let current_config := Base.ModelConfig__init__ in
  current_error <- evaluate_config current_config inputs targets ;;
  let high_error_cases :=
    analyze_high_error_cases inputs targets current_config in
  _ <- for_each
         (fun (_ : unit) (c : case_error) =>
            let '(duration, miles, receipts) := inp c in
            miles_per_day <- Py.div miles duration ;;
            receipts_per_day <- Py.div receipts duration ;;
            Ok tt)
         high_error_cases tt ;;
  st <- sweep inputs targets ;;
  match best_params st, best_config st with
  | Some params, Some config =>
      _ <- Py.getitem params 0 ;;
      _ <- Py.getitem params 1 ;;
      _ <- Py.getitem params 2 ;;
      _ <- Py.getitem params 3 ;;
      _ <- Py.getitem params 4 ;;
      let optimized_errors := analyze_high_error_cases inputs targets config in
      Ok config
  | _, _ => Raise TypeError      (* [best_params[0]] with [best_params = None] *)
  end.

End Calibrator.

End Train.

(** ** The receipt cents on binary64 floats

    [receipt_cents] of [engineer_features] computed as Python computes it:
    the product [total_receipts_amount * 100] is rounded to the nearest
    binary64 value, and the remainder by 100 of a non-negative finite float
    is exact.  [None] stands for an argument outside that domain. *)

Module Binary64.

(** The rational a finite float denotes. *)
Definition value (x : float) : option Q :=
  match Prim2SF x with
  | S754_zero _ => Some 0
  | S754_finite s m e =>
      let v := inject_Z (Z.pos m) * 2 ^ e in
      Some (if s then - v else v)
  | _ => None
  end.

(** [(total_receipts_amount * 100) % 100] *)
Definition receipt_cents (total_receipts_amount : float) : option Q :=
  match value (total_receipts_amount * 100)%float with
  | Some v => if Qle_bool 0 v then Some (Py.mod_pos v 100) else None
  | None => None
  end.

(** [receipt_ends_49_99] of [calculate_reimbursement.py]:
    [receipt_cents in [49, 99]] on the raw remainder. *)
Definition base_receipt_ends_49_99 (total_receipts_amount : float)
  : option bool :=
  match receipt_cents total_receipts_amount with
  | Some c => Some (Py.Qeqb c 49 || Py.Qeqb c 99)
  | None => None
  end.

(** [receipt_ends_49_99] of [calculate_reimbursement_optimized.py]:
    the remainder goes through [round] first. *)
Definition optimized_receipt_ends_49_99 (total_receipts_amount : float)
  : option bool :=
  match receipt_cents total_receipts_amount with
  | Some c => let k := Py.round c in Some ((k =? 49)%Z || (k =? 99)%Z)
  | None => None
  end.

End Binary64.

(** ** The specification's wording of the path adjustment stage *)

Module Spec.

(** Section 4.4 of the specification, word for word: path 3 is the one
    with the vacation sub-branch, every other path takes its entry of the
    table.  [vacation] is the combination flag
    (duration >= 8 and receipts/day > 120). *)
Definition path_adjust (cfg : ModelConfig) (base_amount : Q) (path : nat)
  (vacation : bool) : result Q :=
  if Nat.eqb path 3 && vacation then
    Ok (base_amount * vacation_bonus_multiplier cfg)
  else if Nat.eqb path 3 then
    Ok (base_amount * vacation_base_multiplier cfg)
  else
    m <- Py.getitem (cluster_multipliers cfg) path ;;
    Ok (base_amount * m).

(** Section 4.6 of the specification: the cents are rounded to the nearest
    integer before they are compared with 49 and 99. *)
Definition bug_trigger (receipts : Q) : bool :=
  let cents := Py.round (Py.mod_pos (receipts * 100) 100) in
  (cents =? 49)%Z || (cents =? 99)%Z.

End Spec.

(** ** Predicates used in the statements *)


(** What the later stages read of the feature vector built from
    [(d, m, r)]: one row of 37 entries, with these positions.  Position 32
    holds the logarithm of the miles and position 11 the cents flag, which
    the two files compute differently. *)
Definition features_of (d m r : Q) (log_miles : Q) (ends_49_99 : Q)
  (features : list (list Q)) : Prop :=
  exists row, features = [row] /\ length row = 37%nat /\
    nth_error row 0 = Some d /\
    nth_error row 1 = Some m /\
    nth_error row 2 = Some r /\
    nth_error row 3 = Some (r / d) /\
    nth_error row 5 = Some (m / d) /\
    nth_error row 10 = Some (Py.flag (Py.Qltb 1000 r)) /\
    nth_error row 11 = Some ends_49_99 /\
    nth_error row 12 = Some (Py.flag (Py.Qeqb d 5)) /\
    nth_error row 18 = Some (Py.flag (Py.Qleb 8 d && Py.Qltb 120 (r / d))) /\
    nth_error row 23 = Some (d * (r / d)) /\
    nth_error row 32 = Some log_miles.

Section Retained.

Variable math_log : Q -> Q.
Variable inputs : list Train.input.
Variable targets : list Q.

(** What the sweep has retained once the grid points [done] are behind it:
    nothing before the first one; afterwards the first point of [done]
    whose error no other point of [done] undercuts. *)
Definition retained (done : list (list Q)) (st : Train.best) : Prop :=
  (done = [] /\
   st = {| Train.best_error := Py.Infinity; Train.best_config := None;
           Train.best_params := None |})
  \/
  (exists i p cfg e,
      nth_error done i = Some p /\
      Train.test_config p = Ok cfg /\
      Train.evaluate_config math_log cfg inputs targets = Ok e /\
      st = {| Train.best_error := Py.Finite e; Train.best_config := Some cfg;
              Train.best_params := Some p |} /\
      (forall q, In q done ->
         exists e',
           (config <- Train.test_config q ;;
            Train.evaluate_config math_log config inputs targets) = Ok e'
           /\ e <= e') /\
      (forall j q, (j < i)%nat -> nth_error done j = Some q ->
         exists e',
           (config <- Train.test_config q ;;
            Train.evaluate_config math_log config inputs targets) = Ok e'
           /\ e < e')).

End Retained.

(** [a] stands before [b] in the list of cases: its error is larger, or
    the errors are equal and [a] comes first in the dataset. *)
Definition worse_first (a b : Train.case_error) : Prop :=
  Train.error b < Train.error a
  \/ (Train.error b == Train.error a
      /\ (Train.case_idx a < Train.case_idx b)%nat).

(** Receipts of a whole number of cents, as binary64 floats. *)
Module WholeCents.

(** The float Python reads from the decimal numeral of [k] cents: the
    binary64 value nearest to [k / 100]. *)
Definition amount (k : Z) : float :=
  (PrimFloat.of_uint63 (Uint63.of_Z k) / 100)%float.

(** The cents of [k] are 49 or 99. *)
Definition ends_49_99 (k : Z) : bool :=
  ((k mod 100 =? 49) || (k mod 100 =? 99))%Z.

(** On the amount of [k] cents the flag of
    [calculate_reimbursement_optimized.py] is the expected one, and the
    flag of [calculate_reimbursement.py] is not set unless expected. *)
Definition flags_as_expected (k : Z) : bool :=
  match Binary64.optimized_receipt_ends_49_99 (amount k),
        Binary64.base_receipt_ends_49_99 (amount k) with
  | Some o, Some b => Bool.eqb o (ends_49_99 k) && implb b (ends_49_99 k)
  | _, _ => false
  end.

(** The amounts of [k], [k + 1], ... cents, [n] of them, all pass. *)
Fixpoint all_from (k : Z) (n : nat) : bool :=
  match n with
  | O => true
  | S n' => flags_as_expected k && all_from (k + 1) n'
  end.

End WholeCents.

(** * Facts about the Python operations *)

Section PyFacts.

Lemma Qltb_true (a b : Q) : Py.Qltb a b = true <-> a < b.
Proof.
  unfold Py.Qltb. rewrite negb_true_iff, <- not_true_iff_false, Qle_bool_iff.
  split; [apply Qnot_le_lt | apply Qlt_not_le].
Qed.

Lemma Qltb_false (a b : Q) : Py.Qltb a b = false <-> b <= a.
Proof.
  unfold Py.Qltb. rewrite negb_false_iff. apply Qle_bool_iff.
Qed.

Lemma Qleb_true (a b : Q) : Py.Qleb a b = true <-> a <= b.
Proof. apply Qle_bool_iff. Qed.

Lemma Qleb_false (a b : Q) : Py.Qleb a b = false <-> b < a.
Proof.
  unfold Py.Qleb. rewrite <- not_true_iff_false, Qle_bool_iff.
  split; [apply Qnot_le_lt | apply Qlt_not_le].
Qed.

Lemma Qeqb_true (a b : Q) : Py.Qeqb a b = true <-> a == b.
Proof. apply Qeq_bool_iff. Qed.

Lemma div_ok (a b : Q) : ~ b == 0 -> Py.div a b = Ok (a / b).
Proof.
  intro Hb. unfold Py.div.
  destruct (Qeq_bool b 0) eqn:E; [|reflexivity].
  apply Qeq_bool_eq in E. contradiction.
Qed.

Lemma div_inv (a b v : Q) : Py.div a b = Ok v -> ~ b == 0 /\ v = a / b.
Proof.
  unfold Py.div. destruct (Qeq_bool b 0) eqn:E; [discriminate|].
  intro H. injection H as <-. split; [|reflexivity].
  now apply Qeq_bool_neq.
Qed.





End PyFacts.

(** * Facts about the stages of the pipeline *)

Lemma getitem_in_range {A : Type} (l : list A) (i : nat) :
  (i < length l)%nat -> exists v, Py.getitem l i = Ok v.
Proof.
  intro H. unfold Py.getitem.
  destruct (nth_error l i) eqn:E; [eauto|].
  apply nth_error_None in E. lia.
Qed.

Lemma getitem_nth (l : list Q) (i : nat) (v : Q) :
  Py.getitem l i = Ok v -> nth i l 0 = v.
Proof.
  unfold Py.getitem. destruct (nth_error l i) eqn:E; [|discriminate].
  intro H. injection H as <-. now apply nth_error_nth.
Qed.

(** Names the positions of a feature vector described by [features_of]. *)
Ltac destruct_features H :=
  destruct H as (row & -> & Hlen & H0 & H1 & H2 & H3 & H5 & H10 & H11 & H12
                 & H18 & H23 & H32).

Lemma truthy_flag (b : bool) : Py.truthy (Py.flag b) = b.
Proof. now destruct b. Qed.

(** Decides the next test a chain of [bind]s in [H] is waiting for. *)
Ltac step_bind H :=
  match type of H with
  | context [bind (if ?c then _ else _) _] =>
      destruct c eqn:?; cbn [bind] in H; try discriminate H
  end.

(** ** [calculate_reimbursement.py] *)

Section BaseFeatures.

Variable math_log : Q -> Q.

Lemma Base_engineer_features_inv (d m r : Q) (f : list (list Q)) :
  Base.engineer_features math_log d m r = Ok f ->
  ~ d == 0 /\
  features_of d m r (math_log (m + 1))
    (Py.flag (Py.Qeqb (Py.mod_pos (r * 100) 100) 49
              || Py.Qeqb (Py.mod_pos (r * 100) 100) 99)) f.
Proof.
  unfold Base.engineer_features, Base.log, Py.div. intro H.
  repeat step_bind H; injection H as <-;
    (split;
     [ now apply Qeq_bool_neq
     | eexists; split; [reflexivity|]; repeat split ]).
Qed.

End BaseFeatures.

Section BaseStages.

Variable math_log : Q -> Q.

Lemma Base_feature_row (row : list Q) (k : nat) (v : Q) :
  nth_error row k = Some v -> Base.feature [row] k = Ok v.
Proof.
  intro H. unfold Base.feature, Py.getitem. simpl. now rewrite H.
Qed.









End BaseStages.

Section BaseClaims.

Variable math_log : Q -> Q.

Lemma Base_apply_cluster_adjustments_spec
  (self : Base.LegacyReimbursementSystem) (d m r base_amount : Q)
  (cluster : nat) (f : list (list Q)) :
  Base.engineer_features math_log d m r = Ok f ->
  length (cluster_multipliers (Base.config self)) = 6%nat ->
  (cluster < 6)%nat ->
  Base.apply_cluster_adjustments self base_amount cluster f
  = Ok (base_amount *
        (if Nat.eqb cluster 4 then
           if Py.Qleb 8 d && Py.Qltb 120 (r / d)
           then vacation_bonus_multiplier (Base.config self)
           else vacation_base_multiplier (Base.config self)
         else nth cluster (cluster_multipliers (Base.config self)) 0)).
Proof.
  intros Hf Hmul Hlt.
  destruct (Base_engineer_features_inv math_log d m r f Hf) as [_ Hof].
  destruct_features Hof.
  unfold Base.apply_cluster_adjustments.
  rewrite (Base_feature_row _ _ _ H18). cbn [bind].
  rewrite truthy_flag.
  destruct (Nat.eqb cluster 4); cbn [andb].
  - now destruct (Py.Qleb 8 d && Py.Qltb 120 (r / d)).
  - destruct (getitem_in_range (cluster_multipliers (Base.config self)) cluster)
      as [v Hv]; [lia|].
    rewrite Hv. cbn [bind]. now rewrite (getitem_nth _ _ _ Hv).
Qed.

Lemma Base_determine_cluster_4 (self : Base.LegacyReimbursementSystem)
  (d m r lm e : Q) (f : list (list Q)) :
  features_of d m r lm e f ->
  Base.determine_cluster self f = Ok 4%nat -> 8 < d /\ 1200 < r.
Proof.
  intros Hof. destruct_features Hof.
  unfold Base.determine_cluster.
  destruct (Base.is_trained self); cbn [negb]; [discriminate|].
  rewrite (Base_feature_row _ _ _ H0), (Base_feature_row _ _ _ H1),
    (Base_feature_row _ _ _ H2), (Base_feature_row _ _ _ H5),
    (Base_feature_row _ _ _ H3).
  cbn [bind].
  destruct (Py.Qleb d 1.5 && _); [discriminate|].
  destruct (Py.Qltb 8 d && Py.Qltb (m / d) 50); [discriminate|].
  destruct (Py.Qleb 3 d && _ && _); [discriminate|].
  destruct (Py.Qleb 4 d && _ && _ && _); [discriminate|].
  destruct (Py.Qltb 8 d && Py.Qltb 1200 r) eqn:E; [|discriminate].
  intros _. apply andb_true_iff in E. destruct E as [E1 E2].
  split; now apply Qltb_true.
Qed.

Lemma Base_vacation_flag_on_path_4 (self : Base.LegacyReimbursementSystem)
  (d : Z) (m r : Q) (f : list (list Q)) :
  Base.engineer_features math_log (inject_Z d) m r = Ok f ->
  Base.determine_cluster self f = Ok 4%nat ->
  ((d <= 10)%Z ->
     Base.feature f 18 = Ok 1 /\
     forall base_amount,
       Base.apply_cluster_adjustments self base_amount 4 f
       = Ok (base_amount * vacation_bonus_multiplier (Base.config self)))
  /\ (Base.feature f 18 = Ok 0 -> (11 <= d)%Z).
Proof.
  intros Hf Hc.
  destruct (Base_engineer_features_inv math_log _ m r f Hf) as [_ Hof].
  destruct (Base_determine_cluster_4 self _ _ _ _ _ f Hof Hc) as [Hd Hr].
  destruct_features Hof.
  assert (E8 : Py.Qleb 8 (inject_Z d) = true) by (apply Qleb_true; lra).
  assert (Hflag : (d <= 10)%Z -> Py.Qltb 120 (r / inject_Z d) = true).
  { intro Hle. apply Qltb_true. apply Qlt_shift_div_l; [lra|].
    rewrite Zle_Qle in Hle. change (inject_Z 10) with 10 in Hle. lra. }
  split.
  - intro Hle.
    unfold Base.apply_cluster_adjustments.
    rewrite (Base_feature_row _ _ _ H18), E8, (Hflag Hle).
    split; [reflexivity|]. intro b. reflexivity.
  - rewrite (Base_feature_row _ _ _ H18), E8. cbn [andb].
    destruct (Z_le_gt_dec d 10) as [Hle|Hgt]; [|lia].
    rewrite (Hflag Hle). discriminate.
Qed.

(** Path 3 needs a duration of at most 7 and the vacation flag one of at
    least 8: on path 3 the flag is never set. *)
Lemma Base_no_vacation_on_path_3 (self : Base.LegacyReimbursementSystem)
  (d m r : Q) (f : list (list Q)) :
  Base.engineer_features math_log d m r = Ok f ->
  Base.determine_cluster self f = Ok 3%nat ->
  Base.feature f 18 = Ok 0.
Proof.
  intros Hf.
  destruct (Base_engineer_features_inv math_log d m r f Hf) as [_ Hof].
  destruct_features Hof.
  unfold Base.determine_cluster.
  destruct (Base.is_trained self); cbn [negb]; [discriminate|].
  rewrite (Base_feature_row _ _ _ H0), (Base_feature_row _ _ _ H1),
    (Base_feature_row _ _ _ H2), (Base_feature_row _ _ _ H5),
    (Base_feature_row _ _ _ H3), (Base_feature_row _ _ _ H18).
  cbn [bind].
  destruct (Py.Qleb d 1.5 && _); [discriminate|].
  destruct (Py.Qltb 8 d && Py.Qltb (m / d) 50); [discriminate|].
  destruct (Py.Qleb 3 d && _ && _); [discriminate|].
  destruct (Py.Qleb 4 d && Py.Qleb d 7 && _ && _) eqn:E.
  - intros _.
    apply andb_true_iff in E. destruct E as [E _].
    apply andb_true_iff in E. destruct E as [E _].
    apply andb_true_iff in E. destruct E as [_ E7].
    assert (E8 : Py.Qleb 8 d = false).
    { apply Qleb_false. apply Qleb_true in E7. lra. }
    now rewrite E8.
  - destruct (Py.Qltb 8 d && Py.Qltb 1200 r); discriminate.
Qed.

End BaseClaims.

(** ** [calculate_reimbursement_optimized.py] *)

Section OptimizedFeatures.

Variable math_log : Q -> Q.

Lemma Optimized_engineer_features_inv (d m r : Q) (f : list (list Q)) :
  Optimized.engineer_features math_log d m r = Ok f ->
  ~ d == 0 /\
  features_of d m r (math_log (m + 1))
    (Py.flag ((Py.round (Py.mod_pos (r * 100) 100) =? 49)%Z
              || (Py.round (Py.mod_pos (r * 100) 100) =? 99)%Z)) f.
Proof.
  unfold Optimized.engineer_features, Optimized.log, Py.div. intro H.
  repeat step_bind H; injection H as <-;
    (split;
     [ now apply Qeq_bool_neq
     | eexists; split; [reflexivity|]; repeat split ]).
Qed.

End OptimizedFeatures.

Section OptimizedStages.

Variable math_log : Q -> Q.

Lemma Optimized_feature_row (row : list Q) (k : nat) (v : Q) :
  nth_error row k = Some v -> Optimized.feature [row] k = Ok v.
Proof.
  intro H. unfold Optimized.feature, Py.getitem. simpl. now rewrite H.
Qed.









End OptimizedStages.

Section OptimizedClaims.

Variable math_log : Q -> Q.

Lemma Optimized_apply_cluster_adjustments_spec
  (self : Optimized.LegacyReimbursementSystem) (d m r base_amount : Q)
  (cluster : nat) (f : list (list Q)) :
  Optimized.engineer_features math_log d m r = Ok f ->
  length (cluster_multipliers (Optimized.config self)) = 6%nat ->
  (cluster < 6)%nat ->
  Optimized.apply_cluster_adjustments self base_amount cluster f
  = Ok (base_amount *
        (if Nat.eqb cluster 4 then
           if Py.Qleb 8 d && Py.Qltb 120 (r / d)
           then vacation_bonus_multiplier (Optimized.config self)
           else vacation_base_multiplier (Optimized.config self)
         else nth cluster (cluster_multipliers (Optimized.config self)) 0)).
Proof.
  intros Hf Hmul Hlt.
  destruct (Optimized_engineer_features_inv math_log d m r f Hf) as [_ Hof].
  destruct_features Hof.
  unfold Optimized.apply_cluster_adjustments.
  rewrite (Optimized_feature_row _ _ _ H18). cbn [bind].
  rewrite truthy_flag.
  destruct (Nat.eqb cluster 4); cbn [andb].
  - now destruct (Py.Qleb 8 d && Py.Qltb 120 (r / d)).
  - destruct (getitem_in_range (cluster_multipliers (Optimized.config self)) cluster)
      as [v Hv]; [lia|].
    rewrite Hv. cbn [bind]. now rewrite (getitem_nth _ _ _ Hv).
Qed.

Lemma Optimized_determine_cluster_4 (self : Optimized.LegacyReimbursementSystem)
  (d m r lm e : Q) (f : list (list Q)) :
  features_of d m r lm e f ->
  Optimized.determine_cluster self f = Ok 4%nat -> 8 < d /\ 1200 < r.
Proof.
  intros Hof. destruct_features Hof.
  unfold Optimized.determine_cluster.
  rewrite (Optimized_feature_row _ _ _ H0), (Optimized_feature_row _ _ _ H1),
    (Optimized_feature_row _ _ _ H2), (Optimized_feature_row _ _ _ H5),
    (Optimized_feature_row _ _ _ H3).
  cbn [bind].
  destruct (Py.Qleb d 1.5 && _); [discriminate|].
  destruct (Py.Qltb 8 d && Py.Qltb (m / d) 50); [discriminate|].
  destruct (Py.Qleb 3 d && _ && _); [discriminate|].
  destruct (Py.Qleb 4 d && _ && _ && _); [discriminate|].
  destruct (Py.Qltb 8 d && Py.Qltb 1200 r) eqn:E; [|discriminate].
  intros _. apply andb_true_iff in E. destruct E as [E1 E2].
  split; now apply Qltb_true.
Qed.

Lemma Optimized_vacation_flag_on_path_4 (self : Optimized.LegacyReimbursementSystem)
  (d : Z) (m r : Q) (f : list (list Q)) :
  Optimized.engineer_features math_log (inject_Z d) m r = Ok f ->
  Optimized.determine_cluster self f = Ok 4%nat ->
  ((d <= 10)%Z ->
     Optimized.feature f 18 = Ok 1 /\
     forall base_amount,
       Optimized.apply_cluster_adjustments self base_amount 4 f
       = Ok (base_amount * vacation_bonus_multiplier (Optimized.config self)))
  /\ (Optimized.feature f 18 = Ok 0 -> (11 <= d)%Z).
Proof.
  intros Hf Hc.
  destruct (Optimized_engineer_features_inv math_log _ m r f Hf) as [_ Hof].
  destruct (Optimized_determine_cluster_4 self _ _ _ _ _ f Hof Hc) as [Hd Hr].
  destruct_features Hof.
  assert (E8 : Py.Qleb 8 (inject_Z d) = true) by (apply Qleb_true; lra).
  assert (Hflag : (d <= 10)%Z -> Py.Qltb 120 (r / inject_Z d) = true).
  { intro Hle. apply Qltb_true. apply Qlt_shift_div_l; [lra|].
    rewrite Zle_Qle in Hle. change (inject_Z 10) with 10 in Hle. lra. }
  split.
  - intro Hle.
    unfold Optimized.apply_cluster_adjustments.
    rewrite (Optimized_feature_row _ _ _ H18), E8, (Hflag Hle).
    split; [reflexivity|]. intro b. reflexivity.
  - rewrite (Optimized_feature_row _ _ _ H18), E8. cbn [andb].
    destruct (Z_le_gt_dec d 10) as [Hle|Hgt]; [|lia].
    rewrite (Hflag Hle). discriminate.
Qed.

End OptimizedClaims.

(** * The calibrator *)

Lemma product_length (pools : list (list Q)) (p : list Q) :
  In p (Train.product pools) -> length p = length pools.
Proof.
  revert p. induction pools as [|pool rest IH]; intros p Hin.
  - destruct Hin as [<-|[]]. reflexivity.
  - cbn [Train.product] in Hin. apply in_flat_map in Hin.
    destruct Hin as (x & _ & Hin). apply in_map_iff in Hin.
    destruct Hin as (q & <- & Hq). cbn [length]. now rewrite (IH q Hq).
Qed.

Lemma test_config_total (p : list Q) :
  length p = 5%nat -> exists cfg, Train.test_config p = Ok cfg.
Proof.
  intro H. destruct p as [|? [|? [|? [|? [|? [|]]]]]]; try discriminate H.
  cbn. eauto.
Qed.

Lemma lt_number_finite (a b : Q) :
  Py.lt_number a (Py.Finite b) = true <-> a < b.
Proof. apply Qltb_true. Qed.


Section CalibratorFacts.

Variable math_log : Q -> Q.
Variable inputs : list Train.input.
Variable targets : list Q.

Lemma evaluate_config_total (cfg : ModelConfig) :
  combine inputs targets <> [] ->
  exists e, Train.evaluate_config math_log cfg inputs targets = Ok e.
Proof.
  intro H. unfold Train.evaluate_config.
  destruct (combine inputs targets) as [|x l]; [contradiction|].
  cbn. eauto.
Qed.

Lemma grid_error_total (p : list Q) :
  combine inputs targets <> [] -> length p = 5%nat ->
  exists e,
    (config <- Train.test_config p ;;
     Train.evaluate_config math_log config inputs targets) = Ok e.
Proof.
  intros Hne Hlen.
  destruct (test_config_total p Hlen) as [cfg ->]. cbn [bind].
  now apply evaluate_config_total.
Qed.

Lemma sweep_step_retained (done : list (list Q)) (st : Train.best)
  (p : list Q) (e : Q) :
  retained math_log inputs targets done st ->
  (config <- Train.test_config p ;;
   Train.evaluate_config math_log config inputs targets) = Ok e ->
  exists st', Train.sweep_step math_log inputs targets st p = Ok st' /\
              retained math_log inputs targets (done ++ [p]) st'.
Proof.
  intros Hinv Hp. unfold Train.sweep_step.
  pose proof Hp as Hp'.
  destruct (Train.test_config p) as [cfg|] eqn:Hcfg; [|discriminate].
  rewrite <- Hcfg in Hp.
  cbn [bind] in Hp' |- *. rewrite Hp'. cbn [bind].
  destruct Hinv as [[-> ->]
                   | (i & p0 & cfg0 & e0 & Hi & Hc0 & He0 & -> & Hmin & Hfirst)].
  - cbn [Train.best_error Py.lt_number]. eexists. split; [reflexivity|].
    right. exists 0%nat, p, cfg, e. cbn [app nth_error].
    repeat split; try assumption.
    + intros q [<-|[]]. exists e. split; [assumption|lra].
    + intros j q Hj. lia.
  - cbn [Train.best_error].
    destruct (Py.lt_number e (Py.Finite e0)) eqn:Elt.
    + apply lt_number_finite in Elt.
      eexists. split; [reflexivity|].
      right. exists (length done), p, cfg, e.
      rewrite nth_error_app2, Nat.sub_diag by lia. cbn [nth_error].
      repeat split; try assumption.
      * intros q Hq. apply in_app_or in Hq. destruct Hq as [Hq|[<-|[]]].
        -- destruct (Hmin q Hq) as (e' & He' & Hle). exists e'.
           split; [assumption|lra].
        -- exists e. split; [assumption|lra].
      * intros j q Hj Hq. rewrite nth_error_app1 in Hq by assumption.
        apply nth_error_In in Hq.
        destruct (Hmin q Hq) as (e' & He' & Hle). exists e'.
        split; [assumption|lra].
    + apply Qltb_false in Elt.
      eexists. split; [reflexivity|].
      right. exists i, p0, cfg0, e0.
      assert (Hlt : (i < length done)%nat).
      { apply nth_error_Some. now rewrite Hi. }
      rewrite nth_error_app1 by assumption.
      repeat split; try assumption.
      * intros q Hq. apply in_app_or in Hq. destruct Hq as [Hq|[<-|[]]].
        -- now apply Hmin.
        -- exists e. split; assumption.
      * intros j q Hj Hq. rewrite nth_error_app1 in Hq by lia.
        now apply (Hfirst j).
Qed.

Lemma for_each_retained (rest done : list (list Q)) (st : Train.best) :
  retained math_log inputs targets done st ->
  (forall p, In p rest ->
     exists e,
       (config <- Train.test_config p ;;
        Train.evaluate_config math_log config inputs targets) = Ok e) ->
  exists st', Train.for_each (Train.sweep_step math_log inputs targets) rest st
              = Ok st' /\ retained math_log inputs targets (done ++ rest) st'.
Proof.
  revert done st. induction rest as [|p rest IH]; intros done st Hinv Hall.
  - exists st. rewrite app_nil_r. split; [reflexivity|assumption].
  - destruct (Hall p (or_introl eq_refl)) as [e He].
    destruct (sweep_step_retained done st p e Hinv He) as (st1 & Hst1 & Hinv1).
    destruct (IH (done ++ [p]) st1 Hinv1) as (st' & Hst' & Hinv').
    { intros q Hq. apply Hall. now right. }
    exists st'. cbn [Train.for_each]. rewrite Hst1. cbn [bind].
    rewrite <- app_assoc in Hinv'. split; assumption.
Qed.

Lemma sweep_retained :
  combine inputs targets <> [] ->
  exists st, Train.sweep math_log inputs targets = Ok st /\
             retained math_log inputs targets (Train.product Train.param_ranges) st.
Proof.
  intro Hne. unfold Train.sweep.
  apply (for_each_retained (Train.product Train.param_ranges) []).
  - left. split; reflexivity.
  - intros p Hp. apply grid_error_total; [assumption|].
    now rewrite (product_length _ _ Hp).
Qed.

(** What [optimize_parameters] returns is the configuration the sweep has
    retained. *)
Lemma optimize_parameters_returns_retained (cfg : ModelConfig) :
  Train.optimize_parameters math_log inputs targets = Ok cfg ->
  exists st, Train.sweep math_log inputs targets = Ok st
             /\ Train.best_config st = Some cfg.
Proof.
  unfold Train.optimize_parameters.
  destruct (Train.evaluate_config math_log _ inputs targets); [|discriminate].
  cbn [bind].
  destruct (Train.for_each _ _ tt); [|discriminate]. cbn [bind].
  destruct (Train.sweep math_log inputs targets) as [st|]; [|discriminate].
  cbn [bind].
  destruct (Train.best_params st) as [params|]; [|discriminate].
  destruct (Train.best_config st) as [config|] eqn:Hbest; [|discriminate].
  repeat (match goal with
          | |- context [Py.getitem ?l ?i] => destruct (Py.getitem l i)
          end; [cbn [bind]|discriminate]).
  intro H. injection H as <-. eauto.
Qed.

End CalibratorFacts.

(** The diagnostics that precede the sweep divide by the duration of the
    ten worst cases outside any [try]: a record of duration 0, scored 1000
    by [evaluate_config], stops [optimize_parameters] there. *)
Lemma diagnostics_stop_on_zero_duration :
  Train.optimize_parameters Py.ln_approx
    [(5, 900, 1200); (0, 10, 10); (3, 100, 49.49)] [1500; 20; 300]
  = Raise ZeroDivisionError.
Proof. vm_compute. reflexivity. Qed.

(** * The cents flag *)

Section CentsFlag.

Variable math_log : Q -> Q.

(** [calculate_reimbursement_optimized.py] rounds the cents before it
    compares them, as the specification words it. *)
Lemma Optimized_cents_flag_rounded (d m r : Q) (f : list (list Q)) :
  Optimized.engineer_features math_log d m r = Ok f ->
  Optimized.feature f 11 = Ok (Py.flag (Spec.bug_trigger r)).
Proof.
  intro Hf.
  destruct (Optimized_engineer_features_inv math_log d m r f Hf) as [_ Hof].
  destruct_features Hof. now apply Optimized_feature_row.
Qed.

(** [calculate_reimbursement.py] compares the raw remainder. *)
Lemma Base_cents_flag_raw (d m r : Q) (f : list (list Q)) :
  Base.engineer_features math_log d m r = Ok f ->
  Base.feature f 11
  = Ok (Py.flag (Py.Qeqb (Py.mod_pos (r * 100) 100) 49
                 || Py.Qeqb (Py.mod_pos (r * 100) 100) 99)).
Proof.
  intro Hf.
  destruct (Base_engineer_features_inv math_log d m r f Hf) as [_ Hof].
  destruct_features Hof. now apply Base_feature_row.
Qed.

(** Already in exact arithmetic the two differ off the whole cents:
    receipts 0.494 have 49.4 cents, which round to 49. *)
Lemma cents_flag_at_0_494 :
  (f <- Base.engineer_features math_log 3 100 0.494 ;; Base.feature f 11)
  = Ok 0
  /\
  (f <- Optimized.engineer_features math_log 3 100 0.494 ;;
   Optimized.feature f 11) = Ok 1
  /\ Spec.bug_trigger 0.494 = true.
Proof. repeat split. Qed.

(** The bonus of [apply_rounding_bug]. *)
Lemma Base_apply_rounding_bug_flag (self : Base.LegacyReimbursementSystem)
  (amount : Q) (b : bool) :
  Base.apply_rounding_bug self amount (Py.flag b)
  = if b
    then amount + (bug_base_bonus (Base.config self)
                   + amount * bug_multiplier (Base.config self))
    else amount.
Proof. now destruct b. Qed.

Lemma Optimized_apply_rounding_bug_flag
  (self : Optimized.LegacyReimbursementSystem) (amount : Q) (b : bool) :
  Optimized.apply_rounding_bug self amount (Py.flag b)
  = if b
    then amount + (bug_base_bonus (Optimized.config self)
                   + amount * bug_multiplier (Optimized.config self))
    else amount.
Proof. now destruct b. Qed.

End CentsFlag.

(** * The claims *)



(** C2 (amended).  For duration 10, miles 300 and receipts 1500.00 the
    decision table of [determine_cluster], read top to bottom, stops at its
    second row (duration > 8 and miles/day = 30 < 50): the selected path
    is 1, in both files. *)
Theorem C2_example_selects_path_1 (math_log : Q -> Q) :
  (f <- Base.engineer_features math_log 10 300 1500 ;;
   Base.determine_cluster Base.LegacyReimbursementSystem__init__ f)
  = Ok 1%nat
  /\
  (f <- Optimized.engineer_features math_log 10 300 1500 ;;
   Optimized.determine_cluster Optimized.LegacyReimbursementSystem__init__ f)
  = Ok 1%nat.
Proof. split; reflexivity. Qed.

(** C2 as stated fails: the path selected for duration 10, miles 300 and
    receipts 1500.00 is not 4. *)
Lemma C2_example_not_path_4 :
  (f <- Base.engineer_features Py.ln_approx 10 300 1500 ;;
   Base.determine_cluster Base.LegacyReimbursementSystem__init__ f)
  <> Ok 4%nat.
Proof. vm_compute. discriminate. Qed.

(** C3 (amended).  The path adjustment stage multiplies the base amount
    once.  For path 4 the factor is the vacation-bonus multiplier when the
    vacation flag (duration >= 8 and receipts/day > 120) is set and the
    vacation-base multiplier otherwise; for every other path, path 3
    included, it is that path's entry of the six-element table. *)
Theorem C3_path_4_has_the_vacation_branch (math_log : Q -> Q)
  (base_self : Base.LegacyReimbursementSystem)
  (optimized_self : Optimized.LegacyReimbursementSystem)
  (d m r base_amount : Q) (cluster : nat) :
  (cluster < 6)%nat ->
  length (cluster_multipliers (Base.config base_self)) = 6%nat ->
  length (cluster_multipliers (Optimized.config optimized_self)) = 6%nat ->
  (f <- Base.engineer_features math_log d m r ;;
   Base.apply_cluster_adjustments base_self base_amount cluster f)
  = (f <- Base.engineer_features math_log d m r ;;
     Ok (base_amount *
         (if Nat.eqb cluster 4 then
            if Py.Qleb 8 d && Py.Qltb 120 (r / d)
            then vacation_bonus_multiplier (Base.config base_self)
            else vacation_base_multiplier (Base.config base_self)
          else nth cluster (cluster_multipliers (Base.config base_self)) 0)))
  /\
  (f <- Optimized.engineer_features math_log d m r ;;
   Optimized.apply_cluster_adjustments optimized_self base_amount cluster f)
  = (f <- Optimized.engineer_features math_log d m r ;;
     Ok (base_amount *
         (if Nat.eqb cluster 4 then
            if Py.Qleb 8 d && Py.Qltb 120 (r / d)
            then vacation_bonus_multiplier (Optimized.config optimized_self)
            else vacation_base_multiplier (Optimized.config optimized_self)
          else nth cluster
                 (cluster_multipliers (Optimized.config optimized_self)) 0))).
Proof.
  intros Hlt Hb Ho. split.
  - destruct (Base.engineer_features math_log d m r) as [f|e] eqn:Hf;
      [|reflexivity].
    cbn [bind]. now apply (Base_apply_cluster_adjustments_spec math_log _ d m r).
  - destruct (Optimized.engineer_features math_log d m r) as [f|e] eqn:Hf;
      [|reflexivity].
    cbn [bind].
    now apply (Optimized_apply_cluster_adjustments_spec math_log _ d m r).
Qed.

Lemma C3_path_4_has_the_vacation_branch_witness :
  (f <- Base.engineer_features Py.ln_approx 9 900 1500 ;;
   Base.apply_cluster_adjustments Base.LegacyReimbursementSystem__init__ 100 4 f)
  = (f <- Base.engineer_features Py.ln_approx 9 900 1500 ;;
     Ok (100 *
         (if Nat.eqb 4 4 then
            if Py.Qleb 8 9 && Py.Qltb 120 (1500 / 9)
            then vacation_bonus_multiplier Base.ModelConfig__init__
            else vacation_base_multiplier Base.ModelConfig__init__
          else nth 4 (cluster_multipliers Base.ModelConfig__init__) 0)))
  /\
  (f <- Optimized.engineer_features Py.ln_approx 9 900 1500 ;;
   Optimized.apply_cluster_adjustments
     Optimized.LegacyReimbursementSystem__init__ 100 4 f)
  = (f <- Optimized.engineer_features Py.ln_approx 9 900 1500 ;;
     Ok (100 *
         (if Nat.eqb 4 4 then
            if Py.Qleb 8 9 && Py.Qltb 120 (1500 / 9)
            then vacation_bonus_multiplier Optimized.ModelConfig__init__
            else vacation_base_multiplier Optimized.ModelConfig__init__
          else nth 4 (cluster_multipliers Optimized.ModelConfig__init__) 0))).
Proof.
  apply (C3_path_4_has_the_vacation_branch Py.ln_approx
           Base.LegacyReimbursementSystem__init__
           Optimized.LegacyReimbursementSystem__init__ 9 900 1500 100 4).
  - lia.
  - reflexivity.
  - reflexivity.
Defined.

(** C3 as stated fails.  Duration 5, miles 900, receipts 500 select path 3
    with the vacation flag off; the specification's wording multiplies the
    base amount by the vacation-base multiplier there, the code by entry 3
    of the table. *)
Lemma C3_path_3_takes_table_entry :
  exists v w : Q,
    (f <- Base.engineer_features Py.ln_approx 5 900 500 ;;
     c <- Base.determine_cluster Base.LegacyReimbursementSystem__init__ f ;;
     Base.apply_cluster_adjustments Base.LegacyReimbursementSystem__init__
       1000 c f) = Ok v
    /\
    (f <- Base.engineer_features Py.ln_approx 5 900 500 ;;
     c <- Base.determine_cluster Base.LegacyReimbursementSystem__init__ f ;;
     flag <- Base.feature f 18 ;;
     Spec.path_adjust Base.ModelConfig__init__ 1000 c (Py.truthy flag)) = Ok w
    /\ ~ v == w.
Proof.
  exists (1000 * 1.19116), (1000 * 1.07235).
  split; [vm_compute; reflexivity|].
  split; [vm_compute; reflexivity|].
  vm_compute. discriminate.
Qed.

Set Warnings "-inexact-float".

(** C4.  On binary64 floats the two files agree on receipts 49.49 (the
    bonus fires) and 49.50 (it does not), but not on 19.99: the product
    19.99 * 100 is rounded below 1999, the raw remainder of
    [calculate_reimbursement.py] is not 99 and its flag stays off, while
    the rounded remainder of [calculate_reimbursement_optimized.py] is 99
    and its flag is set. *)
Theorem C4_base_cents_miss_19_99 :
  Binary64.receipt_cents 19.99 = Some (435406604599295 # 4398046511104)
  /\ Binary64.base_receipt_ends_49_99 19.99 = Some false
  /\ Binary64.optimized_receipt_ends_49_99 19.99 = Some true
  /\ Binary64.base_receipt_ends_49_99 49.49 = Some true
  /\ Binary64.optimized_receipt_ends_49_99 49.49 = Some true
  /\ Binary64.base_receipt_ends_49_99 49.50 = Some false
  /\ Binary64.optimized_receipt_ends_49_99 49.50 = Some false.
Proof. repeat split; vm_compute; reflexivity. Qed.


(** C6 (amended).  The validation lives in [main]: called with a duration
    that is not positive, or with negative miles or receipts, [main] of
    either file raises [ValueError] before it builds the system or runs a
    stage of the pipeline, reports invalid input parameters and prints no
    amount. *)
Theorem C6_main_rejects_invalid_input (math_log : Q -> Q)
  (a0 a1 a2 a3 : argument) (d : Z) (m r : Q) :
  int_value a1 = Some d -> float_value a2 = Some m -> float_value a3 = Some r ->
  (d <= 0)%Z \/ m < 0 \/ r < 0 ->
  Base.main math_log [a0; a1; a2; a3] = InvalidInputParameters
  /\ Optimized.main math_log [a0; a1; a2; a3] = InvalidInputParameters.
Proof.
  intros H1 H2 H3 Hbad.
  assert (E : (d <=? 0)%Z || Py.Qltb m 0 || Py.Qltb r 0 = true).
  { destruct Hbad as [H|[H|H]].
    - apply Z.leb_le in H. now rewrite H.
    - apply Qltb_true in H. rewrite H. now rewrite orb_true_r.
    - apply Qltb_true in H. rewrite H. now rewrite orb_true_r. }
  unfold Base.main, Optimized.main.
  rewrite H1, H2, H3. cbn [of_option bind]. rewrite E.
  split; reflexivity.
Qed.

Lemma C6_main_rejects_invalid_input_witness :
  Base.main Py.ln_approx
    [ {| int_value := None; float_value := None |};
      {| int_value := Some 3%Z; float_value := Some 3 |};
      {| int_value := None; float_value := Some (-0.5) |};
      {| int_value := Some 100%Z; float_value := Some 100 |} ]
  = InvalidInputParameters
  /\
  Optimized.main Py.ln_approx
    [ {| int_value := None; float_value := None |};
      {| int_value := Some 3%Z; float_value := Some 3 |};
      {| int_value := None; float_value := Some (-0.5) |};
      {| int_value := Some 100%Z; float_value := Some 100 |} ]
  = InvalidInputParameters.
Proof.
  apply (C6_main_rejects_invalid_input Py.ln_approx _ _ _ _ 3 (-0.5) 100).
  - reflexivity.
  - reflexivity.
  - reflexivity.
  - right. left. reflexivity.
Defined.

(** C6 as stated fails: [calculate_reimbursement] itself checks nothing.
    Called with duration 3, miles -0.5 and receipts 100 it runs every
    stage and returns an amount. *)
Lemma C6_core_returns_on_negative_miles :
  Base.calculate_reimbursement Py.ln_approx
    Base.LegacyReimbursementSystem__init__ 3 (-0.5) 100 = Ok 198.50
  /\
  Optimized.calculate_reimbursement Py.ln_approx
    Optimized.LegacyReimbursementSystem__init__ 3 (-0.5) 100 = Ok 204.57.
Proof. split; vm_compute; reflexivity. Qed.

(** C7.  On a dataset with at least one record the sweep completes, and
    what it retains is a grid point [p] with its configuration and its mean
    absolute error [b]: [b] is at most the error of every grid point, and
    every grid point enumerated before [p] has an error strictly above
    [b], so among equal errors the first one enumerated is kept. *)
Theorem C7_sweep_retains_first_minimum (math_log : Q -> Q)
  (inputs : list Train.input) (targets : list Q) :
  combine inputs targets <> [] ->
  exists (st : Train.best) (i : nat) (p : list Q) (cfg : ModelConfig) (b : Q),
    Train.sweep math_log inputs targets = Ok st /\
    Train.best_error st = Py.Finite b /\
    Train.best_config st = Some cfg /\
    Train.best_params st = Some p /\
    nth_error (Train.product Train.param_ranges) i = Some p /\
    Train.test_config p = Ok cfg /\
    Train.evaluate_config math_log cfg inputs targets = Ok b /\
    (forall q, In q (Train.product Train.param_ranges) ->
       exists e,
         (config <- Train.test_config q ;;
          Train.evaluate_config math_log config inputs targets) = Ok e
         /\ b <= e) /\
    (forall j q, (j < i)%nat ->
       nth_error (Train.product Train.param_ranges) j = Some q ->
       exists e,
         (config <- Train.test_config q ;;
          Train.evaluate_config math_log config inputs targets) = Ok e
         /\ b < e).
Proof.
  intro Hne.
  destruct (sweep_retained math_log inputs targets Hne) as (st & Hst & Hret).
  destruct Hret as [[Hnil _]
                   | (i & p & cfg & b & Hi & Hcfg & Hb & -> & Hmin & Hfirst)].
  - discriminate Hnil.
  - eexists. exists i, p, cfg, b. split; [exact Hst|].
    cbn. repeat split; assumption.
Qed.

Lemma C7_sweep_retains_first_minimum_witness :
  exists (st : Train.best) (i : nat) (p : list Q) (cfg : ModelConfig) (b : Q),
    Train.sweep Py.ln_approx [(5, 900, 1200)] [1500] = Ok st /\
    Train.best_error st = Py.Finite b /\
    Train.best_config st = Some cfg /\
    Train.best_params st = Some p /\
    nth_error (Train.product Train.param_ranges) i = Some p /\
    Train.test_config p = Ok cfg /\
    Train.evaluate_config Py.ln_approx cfg [(5, 900, 1200)] [1500] = Ok b /\
    (forall q, In q (Train.product Train.param_ranges) ->
       exists e,
         (config <- Train.test_config q ;;
          Train.evaluate_config Py.ln_approx config [(5, 900, 1200)] [1500])
         = Ok e
         /\ b <= e) /\
    (forall j q, (j < i)%nat ->
       nth_error (Train.product Train.param_ranges) j = Some q ->
       exists e,
         (config <- Train.test_config q ;;
          Train.evaluate_config Py.ln_approx config [(5, 900, 1200)] [1500])
         = Ok e
         /\ b < e).
Proof.
  apply (C7_sweep_retains_first_minimum Py.ln_approx [(5, 900, 1200)] [1500]).
  simpl. discriminate.
Defined.



(** C9.  The two receipt formulas disagree above 50: at receipts 100 the
    flat-dollar formula of [calculate_reimbursement.py] and the
    rate-continuation formula of [calculate_reimbursement_optimized.py]
    give different amounts, each file under its own receipt rates and both
    under the same rates. *)
Theorem C9_receipt_tiers_differ :
  exists receipts b o o' : Q,
    50 < receipts /\
    Base.receipt_reimbursement Base.LegacyReimbursementSystem__init__ receipts
    = Ok b /\
    Optimized.receipt_reimbursement Optimized.LegacyReimbursementSystem__init__
      receipts = Ok o /\
    Optimized.receipt_reimbursement
      {| Optimized.config := Base.ModelConfig__init__ |} receipts = Ok o' /\
    ~ b == o /\ ~ b == o'.
Proof.
  exists 100, (15 + (100 - 50) * 0.30454),
    (50 * 0.399975746217208 + (100 - 50) * 0.3045420665708),
    (50 * 0.39998 + (100 - 50) * 0.30454).
  split; [reflexivity|].
  split; [reflexivity|].
  split; [reflexivity|].
  split; [reflexivity|].
  split; vm_compute; discriminate.
Qed.

(** C10.  When [determine_cluster] selects path 4 for an integer duration
    of at most 10, the vacation flag (position 18 of the feature vector) is
    set and the adjustment stage multiplies by the vacation-bonus
    multiplier; the flag can be off on path 4 only from duration 11 on. *)
Theorem C10_vacation_flag_on_path_4 (math_log : Q -> Q)
  (self : Base.LegacyReimbursementSystem) (d : Z) (m r : Q) :
  (f <- Base.engineer_features math_log (inject_Z d) m r ;;
   Base.determine_cluster self f) = Ok 4%nat ->
  ((d <= 10)%Z ->
     (f <- Base.engineer_features math_log (inject_Z d) m r ;;
      Base.feature f 18) = Ok 1
     /\
     forall base_amount : Q,
       (f <- Base.engineer_features math_log (inject_Z d) m r ;;
        Base.apply_cluster_adjustments self base_amount 4 f)
       = Ok (base_amount * vacation_bonus_multiplier (Base.config self)))
  /\
  ((f <- Base.engineer_features math_log (inject_Z d) m r ;;
    Base.feature f 18) = Ok 0 -> (11 <= d)%Z).
Proof.
  destruct (Base.engineer_features math_log (inject_Z d) m r) as [f|e] eqn:Hf;
    cbn [bind]; [|discriminate].
  intro Hc. now apply (Base_vacation_flag_on_path_4 math_log self d m r f).
Qed.

Lemma C10_vacation_flag_on_path_4_witness :
  (f <- Base.engineer_features Py.ln_approx (inject_Z 9) 900 1500 ;;
   Base.feature f 18) = Ok 1
  /\
  forall base_amount : Q,
    (f <- Base.engineer_features Py.ln_approx (inject_Z 9) 900 1500 ;;
     Base.apply_cluster_adjustments Base.LegacyReimbursementSystem__init__
       base_amount 4 f)
    = Ok (base_amount * vacation_bonus_multiplier
                          (Base.config Base.LegacyReimbursementSystem__init__)).
Proof.
  refine (proj1 (C10_vacation_flag_on_path_4 Py.ln_approx
                   Base.LegacyReimbursementSystem__init__ 9 900 1500 _) _).
  - vm_compute. reflexivity.
  - lia.
Defined.

(** * Further properties of the code *)

(** ** Where the pipeline returns and how it fails *)

Section BaseDomain.

Variable math_log : Q -> Q.

Lemma Base_engineer_features_zero_duration (d m r : Q) :
  d == 0 -> Base.engineer_features math_log d m r = Raise ZeroDivisionError.
Proof.
  intro Hd. unfold Base.engineer_features, Py.div.
  now rewrite (Qeq_eq_bool _ _ Hd).
Qed.

Lemma Base_engineer_features_domain_error (d m r : Q) :
  ~ d == 0 -> d <= -1 \/ m <= -1 \/ r <= -1 ->
  Base.engineer_features math_log d m r = Raise ValueError.
Proof.
  intros Hd Hbad. unfold Base.engineer_features, Base.log.
  rewrite (div_ok r d), (div_ok m d) by assumption.
  assert (Hm : (if Py.Qltb 0 m then Py.div r m else Ok 0)
               = Ok (if Py.Qltb 0 m then r / m else 0)).
  { destruct (Py.Qltb 0 m) eqn:Em; [|reflexivity].
    apply Qltb_true in Em. apply div_ok. lra. }
  rewrite Hm. cbn [bind].
  destruct (Py.Qltb 0 (d + 1)) eqn:E1; [|reflexivity].
  destruct (Py.Qltb 0 (m + 1)) eqn:E2; [|reflexivity].
  destruct (Py.Qltb 0 (r + 1)) eqn:E3; [|reflexivity].
  apply Qltb_true in E1, E2, E3. lra.
Qed.

Lemma Base_engineer_features_defined (d m r : Q) :
  ~ d == 0 -> -1 < d -> -1 < m -> -1 < r ->
  exists f, Base.engineer_features math_log d m r = Ok f.
Proof.
  intros Hd0 Hd Hm Hr.
  unfold Base.engineer_features, Base.log.
  assert (E1 : Py.Qltb 0 (d + 1) = true) by (apply Qltb_true; lra).
  assert (E2 : Py.Qltb 0 (m + 1) = true) by (apply Qltb_true; lra).
  assert (E3 : Py.Qltb 0 (r + 1) = true) by (apply Qltb_true; lra).
  assert (Hr1 : ~ r + 1 == 0) by lra.
  assert (Hdr : ~ d * (r + 1) == 0).
  { intro H. apply Qmult_integral in H. destruct H; contradiction. }
  rewrite (div_ok r d), (div_ok m d), (div_ok (m * d) (r + 1)),
    (div_ok m (d * (r + 1))) by assumption.
  rewrite E1, E2, E3.
  destruct (Py.Qltb 0 m) eqn:Em.
  - rewrite !div_ok by (apply Qltb_true in Em; lra). cbn [bind]. eauto.
  - cbn [bind]. eauto.
Qed.




End BaseDomain.

Section BaseMain.

Variable math_log : Q -> Q.


End BaseMain.

(** ** What the amount depends on *)

(** The stages after [engineer_features] read the feature vector at the
    positions [features_of] lists and nowhere else. *)
Lemma Base_later_stages_read_listed_positions
  (self : Base.LegacyReimbursementSystem) (d m r lm e : Q)
  (f1 f2 : list (list Q)) :
  features_of d m r lm e f1 -> features_of d m r lm e f2 ->
  (cluster <- Base.determine_cluster self f1 ;;
   base_amount <- Base.calculate_base_reimbursement self d m r ;;
   adjusted_amount <-
     Base.apply_cluster_adjustments self base_amount cluster f1 ;;
   threshold_adjusted <- Base.apply_threshold_effects self adjusted_amount f1 ;;
   receipt_ends_49_99 <- Base.feature f1 11 ;;
   duration_spending_interaction <- Base.feature f1 23 ;;
   log_receipts <- Base.feature f1 32 ;;
   Ok (Py.round2
         (Py.max 50
            (Py.min
               (Base.apply_rounding_bug self threshold_adjusted
                  receipt_ends_49_99
                + (duration_spending_interaction
                   * interaction_coeff (Base.config self)
                   + log_receipts * log_bonus_coeff (Base.config self)))
               5000))))
  = (cluster <- Base.determine_cluster self f2 ;;
     base_amount <- Base.calculate_base_reimbursement self d m r ;;
     adjusted_amount <-
       Base.apply_cluster_adjustments self base_amount cluster f2 ;;
     threshold_adjusted <-
       Base.apply_threshold_effects self adjusted_amount f2 ;;
     receipt_ends_49_99 <- Base.feature f2 11 ;;
     duration_spending_interaction <- Base.feature f2 23 ;;
     log_receipts <- Base.feature f2 32 ;;
     Ok (Py.round2
           (Py.max 50
              (Py.min
                 (Base.apply_rounding_bug self threshold_adjusted
                    receipt_ends_49_99
                  + (duration_spending_interaction
                     * interaction_coeff (Base.config self)
                     + log_receipts * log_bonus_coeff (Base.config self)))
                 5000)))).
Proof.
  intros (row1 & -> & _ & A0 & A1 & A2 & A3 & A5 & A10 & A11 & A12 & A18
          & A23 & A32)
         (row2 & -> & _ & B0 & B1 & B2 & B3 & B5 & B10 & B11 & B12 & B18
          & B23 & B32).
  unfold Base.determine_cluster, Base.apply_cluster_adjustments,
    Base.apply_threshold_effects.
  rewrite ?(Base_feature_row _ _ _ A0), ?(Base_feature_row _ _ _ A1),
    ?(Base_feature_row _ _ _ A2), ?(Base_feature_row _ _ _ A3),
    ?(Base_feature_row _ _ _ A5), ?(Base_feature_row _ _ _ A11),
    ?(Base_feature_row _ _ _ A12), ?(Base_feature_row _ _ _ A18),
    ?(Base_feature_row _ _ _ A23), ?(Base_feature_row _ _ _ A32).
  rewrite ?(Base_feature_row _ _ _ B0), ?(Base_feature_row _ _ _ B1),
    ?(Base_feature_row _ _ _ B2), ?(Base_feature_row _ _ _ B3),
    ?(Base_feature_row _ _ _ B5), ?(Base_feature_row _ _ _ B11),
    ?(Base_feature_row _ _ _ B12), ?(Base_feature_row _ _ _ B18),
    ?(Base_feature_row _ _ _ B23), ?(Base_feature_row _ _ _ B32).
  reflexivity.
Qed.

(** Of [math.log] the amount uses one value only, the logarithm of
    [miles_traveled + 1]: position 32, which [calculate_reimbursement]
    reads under the name [log_receipts], holds [log_miles_traveled].  Two
    logarithm functions that agree there give the same outcome. *)
Lemma Base_amount_uses_log_of_miles_only (log1 log2 : Q -> Q)
  (self : Base.LegacyReimbursementSystem) (d m r : Q) :
  log1 (m + 1) = log2 (m + 1) ->
  Base.calculate_reimbursement log1 self d m r
  = Base.calculate_reimbursement log2 self d m r.
Proof.
  intro Hlog.
  destruct (Qeq_dec d 0) as [Hd|Hd].
  { unfold Base.calculate_reimbursement.
    now rewrite !(Base_engineer_features_zero_duration _ d m r Hd). }
  destruct (Qlt_le_dec (-1) d) as [H1|H1];
    [destruct (Qlt_le_dec (-1) m) as [H2|H2];
     [destruct (Qlt_le_dec (-1) r) as [H3|H3]|]|];
    try (unfold Base.calculate_reimbursement;
         rewrite !Base_engineer_features_domain_error by tauto;
         reflexivity).
  destruct (Base_engineer_features_defined log1 d m r Hd H1 H2 H3) as [f1 Hf1].
  destruct (Base_engineer_features_defined log2 d m r Hd H1 H2 H3) as [f2 Hf2].
  destruct (Base_engineer_features_inv log1 d m r f1 Hf1) as [_ Hof1].
  destruct (Base_engineer_features_inv log2 d m r f2 Hf2) as [_ Hof2].
  rewrite Hlog in Hof1.
  unfold Base.calculate_reimbursement. rewrite Hf1, Hf2. cbn [bind].
  exact (Base_later_stages_read_listed_positions self d m r _ _ f1 f2
           Hof1 Hof2).
Qed.

(** ** The decision table *)

(** The leftmost comparison of a conjunction of tests. *)
Ltac head_test c :=
  lazymatch c with
  | andb ?a _ => head_test a
  | _ => c
  end.

(** Decides the tests of a chain of [if]s in the order Python evaluates
    them. *)
Ltac decide_tests :=
  repeat match goal with
         | |- context [if ?c then _ else _] =>
             let a := head_test c in
             let E := fresh "E" in
             lazymatch a with
             | Py.Qltb _ _ =>
                 destruct a eqn:E;
                 [apply Qltb_true in E | apply Qltb_false in E]
             | Py.Qleb _ _ =>
                 destruct a eqn:E;
                 [apply Qleb_true in E | apply Qleb_false in E]
             end;
             cbn [andb]
         end.


Section BasePaths.

Variable math_log : Q -> Q.


End BasePaths.

Section OptimizedDomain.

Variable math_log : Q -> Q.

Lemma Optimized_engineer_features_zero_duration (d m r : Q) :
  d == 0 ->
  Optimized.engineer_features math_log d m r = Raise ZeroDivisionError.
Proof.
  intro Hd. unfold Optimized.engineer_features, Py.div.
  now rewrite (Qeq_eq_bool _ _ Hd).
Qed.

Lemma Optimized_engineer_features_domain_error (d m r : Q) :
  ~ d == 0 -> d <= -1 \/ m <= -1 \/ r <= -1 ->
  Optimized.engineer_features math_log d m r = Raise ValueError.
Proof.
  intros Hd Hbad. unfold Optimized.engineer_features, Optimized.log.
  rewrite (div_ok r d), (div_ok m d) by assumption.
  assert (Hm : (if Py.Qltb 0 m then Py.div r m else Ok 0)
               = Ok (if Py.Qltb 0 m then r / m else 0)).
  { destruct (Py.Qltb 0 m) eqn:Em; [|reflexivity].
    apply Qltb_true in Em. apply div_ok. lra. }
  rewrite Hm. cbn [bind].
  destruct (Py.Qltb 0 (d + 1)) eqn:E1; [|reflexivity].
  destruct (Py.Qltb 0 (m + 1)) eqn:E2; [|reflexivity].
  destruct (Py.Qltb 0 (r + 1)) eqn:E3; [|reflexivity].
  apply Qltb_true in E1, E2, E3. lra.
Qed.

Lemma Optimized_engineer_features_defined (d m r : Q) :
  ~ d == 0 -> -1 < d -> -1 < m -> -1 < r ->
  exists f, Optimized.engineer_features math_log d m r = Ok f.
Proof.
  intros Hd0 Hd Hm Hr.
  unfold Optimized.engineer_features, Optimized.log.
  assert (E1 : Py.Qltb 0 (d + 1) = true) by (apply Qltb_true; lra).
  assert (E2 : Py.Qltb 0 (m + 1) = true) by (apply Qltb_true; lra).
  assert (E3 : Py.Qltb 0 (r + 1) = true) by (apply Qltb_true; lra).
  assert (Hr1 : ~ r + 1 == 0) by lra.
  assert (Hdr : ~ d * (r + 1) == 0).
  { intro H. apply Qmult_integral in H. destruct H; contradiction. }
  rewrite (div_ok r d), (div_ok m d), (div_ok (m * d) (r + 1)),
    (div_ok m (d * (r + 1))) by assumption.
  rewrite E1, E2, E3.
  destruct (Py.Qltb 0 m) eqn:Em.
  - rewrite !div_ok by (apply Qltb_true in Em; lra). cbn [bind]. eauto.
  - cbn [bind]. eauto.
Qed.



End OptimizedDomain.

Section OptimizedMain.

Variable math_log : Q -> Q.


End OptimizedMain.

(** The stages after [engineer_features] read the feature vector at the
    positions [features_of] lists and nowhere else. *)
Lemma Optimized_later_stages_read_listed_positions
  (self : Optimized.LegacyReimbursementSystem) (d m r lm e : Q)
  (f1 f2 : list (list Q)) :
  features_of d m r lm e f1 -> features_of d m r lm e f2 ->
  (cluster <- Optimized.determine_cluster self f1 ;;
   base_amount <- Optimized.calculate_base_reimbursement self d m r ;;
   adjusted_amount <-
     Optimized.apply_cluster_adjustments self base_amount cluster f1 ;;
   threshold_adjusted <-
     Optimized.apply_threshold_effects self adjusted_amount f1 ;;
   receipt_ends_49_99 <- Optimized.feature f1 11 ;;
   duration_spending_interaction <- Optimized.feature f1 23 ;;
   log_receipts <- Optimized.feature f1 32 ;;
   Ok (Py.round2
         (Py.max 50
            (Py.min
               (Optimized.apply_rounding_bug self threshold_adjusted
                  receipt_ends_49_99
                + (duration_spending_interaction
                   * interaction_coeff (Optimized.config self)
                   + log_receipts * log_bonus_coeff (Optimized.config self)))
               5000))))
  = (cluster <- Optimized.determine_cluster self f2 ;;
     base_amount <- Optimized.calculate_base_reimbursement self d m r ;;
     adjusted_amount <-
       Optimized.apply_cluster_adjustments self base_amount cluster f2 ;;
     threshold_adjusted <-
       Optimized.apply_threshold_effects self adjusted_amount f2 ;;
     receipt_ends_49_99 <- Optimized.feature f2 11 ;;
     duration_spending_interaction <- Optimized.feature f2 23 ;;
     log_receipts <- Optimized.feature f2 32 ;;
     Ok (Py.round2
           (Py.max 50
              (Py.min
                 (Optimized.apply_rounding_bug self threshold_adjusted
                    receipt_ends_49_99
                  + (duration_spending_interaction
                     * interaction_coeff (Optimized.config self)
                     + log_receipts * log_bonus_coeff (Optimized.config self)))
                 5000)))).
Proof.
  intros (row1 & -> & _ & A0 & A1 & A2 & A3 & A5 & A10 & A11 & A12 & A18
          & A23 & A32)
         (row2 & -> & _ & B0 & B1 & B2 & B3 & B5 & B10 & B11 & B12 & B18
          & B23 & B32).
  unfold Optimized.determine_cluster, Optimized.apply_cluster_adjustments,
    Optimized.apply_threshold_effects.
  rewrite ?(Optimized_feature_row _ _ _ A0), ?(Optimized_feature_row _ _ _ A1),
    ?(Optimized_feature_row _ _ _ A2), ?(Optimized_feature_row _ _ _ A3),
    ?(Optimized_feature_row _ _ _ A5), ?(Optimized_feature_row _ _ _ A10),
    ?(Optimized_feature_row _ _ _ A11),
    ?(Optimized_feature_row _ _ _ A12), ?(Optimized_feature_row _ _ _ A18),
    ?(Optimized_feature_row _ _ _ A23), ?(Optimized_feature_row _ _ _ A32).
  rewrite ?(Optimized_feature_row _ _ _ B0), ?(Optimized_feature_row _ _ _ B1),
    ?(Optimized_feature_row _ _ _ B2), ?(Optimized_feature_row _ _ _ B3),
    ?(Optimized_feature_row _ _ _ B5), ?(Optimized_feature_row _ _ _ B10),
    ?(Optimized_feature_row _ _ _ B11),
    ?(Optimized_feature_row _ _ _ B12), ?(Optimized_feature_row _ _ _ B18),
    ?(Optimized_feature_row _ _ _ B23), ?(Optimized_feature_row _ _ _ B32).
  reflexivity.
Qed.

(** Of [math.log] the amount uses one value only, the logarithm of
    [miles_traveled + 1]: position 32, which [calculate_reimbursement]
    reads under the name [log_receipts], holds [log_miles_traveled].  Two
    logarithm functions that agree there give the same outcome. *)
Lemma Optimized_amount_uses_log_of_miles_only (log1 log2 : Q -> Q)
  (self : Optimized.LegacyReimbursementSystem) (d m r : Q) :
  log1 (m + 1) = log2 (m + 1) ->
  Optimized.calculate_reimbursement log1 self d m r
  = Optimized.calculate_reimbursement log2 self d m r.
Proof.
  intro Hlog.
  destruct (Qeq_dec d 0) as [Hd|Hd].
  { unfold Optimized.calculate_reimbursement.
    now rewrite !(Optimized_engineer_features_zero_duration _ d m r Hd). }
  destruct (Qlt_le_dec (-1) d) as [H1|H1];
    [destruct (Qlt_le_dec (-1) m) as [H2|H2];
     [destruct (Qlt_le_dec (-1) r) as [H3|H3]|]|];
    try (unfold Optimized.calculate_reimbursement;
         rewrite !Optimized_engineer_features_domain_error by tauto;
         reflexivity).
  destruct (Optimized_engineer_features_defined log1 d m r Hd H1 H2 H3)
    as [f1 Hf1].
  destruct (Optimized_engineer_features_defined log2 d m r Hd H1 H2 H3)
    as [f2 Hf2].
  destruct (Optimized_engineer_features_inv log1 d m r f1 Hf1) as [_ Hof1].
  destruct (Optimized_engineer_features_inv log2 d m r f2 Hf2) as [_ Hof2].
  rewrite Hlog in Hof1.
  unfold Optimized.calculate_reimbursement. rewrite Hf1, Hf2. cbn [bind].
  exact (Optimized_later_stages_read_listed_positions self d m r _ _ f1 f2
           Hof1 Hof2).
Qed.

Section OptimizedPaths.

Variable math_log : Q -> Q.


End OptimizedPaths.

(** ** The tiers of the base formula *)

Lemma Qmult_le_compat_nonneg_r (a b c : Q) : a <= b -> 0 <= c -> a * c <= b * c.
Proof. intros. now apply Qmult_le_compat_r. Qed.

(** X6.  The mileage formula, the same in both files, never pays less for more
    miles when the three rates are not negative: the tiers meet at 100 and
    at 500 miles. *)
Theorem mileage_reimbursement_monotone
  (base_self : Base.LegacyReimbursementSystem)
  (optimized_self : Optimized.LegacyReimbursementSystem)
  (r0 r1 r2 m1 m2 : Q) :
  mileage_rates (Base.config base_self) = [r0; r1; r2] ->
  mileage_rates (Optimized.config optimized_self) = [r0; r1; r2] ->
  0 <= r0 -> 0 <= r1 -> 0 <= r2 -> m1 <= m2 ->
  exists v1 v2 : Q,
    Base.mileage_reimbursement base_self m1 = Ok v1
    /\ Base.mileage_reimbursement base_self m2 = Ok v2
    /\ Optimized.mileage_reimbursement optimized_self m1 = Ok v1
    /\ Optimized.mileage_reimbursement optimized_self m2 = Ok v2
    /\ v1 <= v2.
Proof.
  intros Hb Ho H0 H1 H2 Hm.
  unfold Base.mileage_reimbursement, Optimized.mileage_reimbursement.
  rewrite Hb, Ho. cbn [Py.getitem nth_error bind].
  assert (P0 := Qmult_le_compat_nonneg_r m1 m2 r0 Hm H0).
  assert (P1 := Qmult_le_compat_nonneg_r m1 m2 r1 Hm H1).
  assert (P2 := Qmult_le_compat_nonneg_r m1 m2 r2 Hm H2).
  decide_tests; cbn [bind]; do 2 eexists; repeat split; try lra.
  - assert (Q1 := Qmult_le_compat_nonneg_r m1 100 r0 ltac:(lra) H0).
    assert (Q2 := Qmult_le_compat_nonneg_r 100 m2 r1 ltac:(lra) H1). lra.
  - assert (Q1 := Qmult_le_compat_nonneg_r m1 100 r0 ltac:(lra) H0).
    assert (Q2 := Qmult_le_compat_nonneg_r 500 m2 r2 ltac:(lra) H2).
    assert (0 <= 400 * r1) by lra. lra.
  - assert (Q1 := Qmult_le_compat_nonneg_r m1 500 r1 ltac:(lra) H1).
    assert (Q2 := Qmult_le_compat_nonneg_r 500 m2 r2 ltac:(lra) H2). lra.
Qed.

Lemma mileage_reimbursement_monotone_witness :
  exists v1 v2 : Q,
    Base.mileage_reimbursement Base.LegacyReimbursementSystem__init__ 300
    = Ok v1
    /\ Base.mileage_reimbursement Base.LegacyReimbursementSystem__init__ 900
       = Ok v2
    /\ Optimized.mileage_reimbursement
         {| Optimized.config := Base.ModelConfig__init__ |} 300 = Ok v1
    /\ Optimized.mileage_reimbursement
         {| Optimized.config := Base.ModelConfig__init__ |} 900 = Ok v2
    /\ v1 <= v2.
Proof.
  apply (mileage_reimbursement_monotone
           Base.LegacyReimbursementSystem__init__
           {| Optimized.config := Base.ModelConfig__init__ |}
           0.78707 0.45114 0.20083 300 900).
  - reflexivity.
  - reflexivity.
  - unfold Qle; simpl; lia.
  - unfold Qle; simpl; lia.
  - unfold Qle; simpl; lia.
  - unfold Qle; simpl; lia.
Defined.

(** X7.  The receipt formula of [calculate_reimbursement_optimized.py] never
    pays less for more receipts when the four rates are not negative: its
    tiers meet at 50, 500 and 1500. *)
Theorem Optimized_receipt_reimbursement_monotone
  (self : Optimized.LegacyReimbursementSystem) (r0 r1 r2 r3 x y : Q) :
  receipt_rates (Optimized.config self) = [r0; r1; r2; r3] ->
  0 <= r0 -> 0 <= r1 -> 0 <= r2 -> 0 <= r3 -> x <= y ->
  exists v w : Q,
    Optimized.receipt_reimbursement self x = Ok v
    /\ Optimized.receipt_reimbursement self y = Ok w
    /\ v <= w.
Proof.
  intros Hrates H0 H1 H2 H3 Hxy.
  unfold Optimized.receipt_reimbursement.
  rewrite Hrates. cbn [Py.getitem nth_error bind].
  assert (P0 := Qmult_le_compat_nonneg_r x y r0 Hxy H0).
  assert (P1 := Qmult_le_compat_nonneg_r x y r1 Hxy H1).
  assert (P2 := Qmult_le_compat_nonneg_r x y r2 Hxy H2).
  assert (P3 := Qmult_le_compat_nonneg_r x y r3 Hxy H3).
  decide_tests; cbn [bind]; do 2 eexists; repeat split; try lra.
  - assert (Q1 := Qmult_le_compat_nonneg_r x 50 r0 ltac:(lra) H0).
    assert (Q2 := Qmult_le_compat_nonneg_r 50 y r1 ltac:(lra) H1). lra.
  - assert (Q1 := Qmult_le_compat_nonneg_r x 50 r0 ltac:(lra) H0).
    assert (Q2 := Qmult_le_compat_nonneg_r 500 y r2 ltac:(lra) H2).
    assert (0 <= 450 * r1) by lra. lra.
  - assert (Q1 := Qmult_le_compat_nonneg_r x 50 r0 ltac:(lra) H0).
    assert (Q2 := Qmult_le_compat_nonneg_r 1500 y r3 ltac:(lra) H3).
    assert (0 <= 450 * r1) by lra. assert (0 <= 1000 * r2) by lra. lra.
  - assert (Q1 := Qmult_le_compat_nonneg_r x 500 r1 ltac:(lra) H1).
    assert (Q2 := Qmult_le_compat_nonneg_r 500 y r2 ltac:(lra) H2). lra.
  - assert (Q1 := Qmult_le_compat_nonneg_r x 500 r1 ltac:(lra) H1).
    assert (Q2 := Qmult_le_compat_nonneg_r 1500 y r3 ltac:(lra) H3).
    assert (0 <= 1000 * r2) by lra. lra.
  - assert (Q1 := Qmult_le_compat_nonneg_r x 1500 r2 ltac:(lra) H2).
    assert (Q2 := Qmult_le_compat_nonneg_r 1500 y r3 ltac:(lra) H3). lra.
Qed.

Lemma Optimized_receipt_reimbursement_monotone_witness :
  exists v w : Q,
    Optimized.receipt_reimbursement Optimized.LegacyReimbursementSystem__init__
      1500 = Ok v
    /\ Optimized.receipt_reimbursement
         Optimized.LegacyReimbursementSystem__init__ 2000 = Ok w
    /\ v <= w.
Proof.
  apply (Optimized_receipt_reimbursement_monotone
           Optimized.LegacyReimbursementSystem__init__
           0.399975746217208 0.3045420665708 0.436856841815577
           0.121882355942393 1500 2000).
  - reflexivity.
  - unfold Qle; simpl; lia.
  - unfold Qle; simpl; lia.
  - unfold Qle; simpl; lia.
  - unfold Qle; simpl; lia.
  - unfold Qle; simpl; lia.
Defined.

(** X8.  The receipt formula of [calculate_reimbursement.py] with its own
    rates pays less above 1500 than at 1500: the last tier starts from the
    flat 495, below the 631.86 that the tier before it reaches, and every
    amount of receipts between 1500 and 2622 gets less than 1500 does. *)
Theorem Base_receipts_above_1500_paid_less (x : Q) :
  1500 < x -> x <= 2622 ->
  exists v w : Q,
    Base.receipt_reimbursement Base.LegacyReimbursementSystem__init__ 1500
    = Ok w
    /\ Base.receipt_reimbursement Base.LegacyReimbursementSystem__init__ x
       = Ok v
    /\ v < w.
Proof.
  intros Hlo Hhi.
  unfold Base.receipt_reimbursement;
    cbn [Py.getitem nth_error bind receipt_rates Base.config
         Base.LegacyReimbursementSystem__init__ Base.ModelConfig__init__];
    decide_tests; cbn [bind]; try lra;
    do 2 eexists; (split; [reflexivity|]); (split; [reflexivity|]); lra.
Qed.

Lemma Base_receipts_above_1500_paid_less_witness :
  exists v w : Q,
    Base.receipt_reimbursement Base.LegacyReimbursementSystem__init__ 1500
    = Ok w
    /\ Base.receipt_reimbursement Base.LegacyReimbursementSystem__init__ 2000
       = Ok v
    /\ v < w.
Proof.
  apply (Base_receipts_above_1500_paid_less 2000).
  - reflexivity.
  - unfold Qle; simpl; lia.
Defined.

(** X9.  The same formula pays less just above 50 than at 50: the second
    tier starts from the flat 15, below the 19.999 that the first tier
    reaches, and receipts between 50 and 66 get less than 50 does. *)
Theorem Base_receipts_above_50_paid_less (x : Q) :
  50 < x -> x <= 66 ->
  exists v w : Q,
    Base.receipt_reimbursement Base.LegacyReimbursementSystem__init__ 50
    = Ok w
    /\ Base.receipt_reimbursement Base.LegacyReimbursementSystem__init__ x
       = Ok v
    /\ v < w.
Proof.
  intros Hlo Hhi.
  unfold Base.receipt_reimbursement;
    cbn [Py.getitem nth_error bind receipt_rates Base.config
         Base.LegacyReimbursementSystem__init__ Base.ModelConfig__init__];
    decide_tests; cbn [bind]; try lra;
    do 2 eexists; (split; [reflexivity|]); (split; [reflexivity|]); lra.
Qed.

Lemma Base_receipts_above_50_paid_less_witness :
  exists v w : Q,
    Base.receipt_reimbursement Base.LegacyReimbursementSystem__init__ 50
    = Ok w
    /\ Base.receipt_reimbursement Base.LegacyReimbursementSystem__init__ 60
       = Ok v
    /\ v < w.
Proof.
  apply (Base_receipts_above_50_paid_less 60).
  - reflexivity.
  - unfold Qle; simpl; lia.
Defined.

(** ** The cents flag on whole cents *)

Lemma Qltb_comp (a b a' b' : Q) :
  a == a' -> b == b' -> Py.Qltb a b = Py.Qltb a' b'.
Proof. intros Ha Hb. unfold Py.Qltb. now rewrite Ha, Hb. Qed.

(** [round] of a whole number is that number. *)
Lemma round_whole (x : Q) (z : Z) : x == inject_Z z -> Py.round x = z.
Proof.
  intro Hx. unfold Py.round.
  rewrite (Qfloor_comp _ _ Hx), Qfloor_Z.
  assert (E : Py.Qltb (x - inject_Z z) (1 # 2) = true).
  { apply Qltb_true. rewrite Hx. lra. }
  now rewrite E.
Qed.

(** The remainder by 100 of a whole number is a whole number. *)
Lemma mod_pos_whole (x : Q) (k : Z) :
  x == inject_Z k -> exists z : Z, Py.mod_pos x 100 == inject_Z z.
Proof.
  intro Hx. exists (k + - (100 * Qfloor (x / 100)))%Z.
  unfold Py.mod_pos. set (F := Qfloor (x / 100)).
  rewrite inject_Z_plus, inject_Z_opp, inject_Z_mult, Hx.
  change (inject_Z 100) with 100. ring.
Qed.

Lemma Qeqb_whole (x : Q) (z n : Z) :
  x == inject_Z z -> Py.Qeqb x (inject_Z n) = (z =? n)%Z.
Proof.
  intro Hx. apply eq_true_iff_eq.
  rewrite Qeqb_true, Z.eqb_eq, Hx. split.
  - apply inject_Z_injective.
  - now intros ->.
Qed.

(** X10.  On receipts that are a whole number of cents the raw comparison of
    [calculate_reimbursement.py] and the rounded one of
    [calculate_reimbursement_optimized.py] set the same flag in exact
    arithmetic: the two files can part there only through the rounding of
    binary64 products. *)
Theorem cents_flags_agree_on_whole_cents (math_log : Q -> Q)
  (d m r : Q) (k : Z) :
  r == k # 100 ->
  (f <- Base.engineer_features math_log d m r ;; Base.feature f 11)
  = (f <- Optimized.engineer_features math_log d m r ;;
     Optimized.feature f 11).
Proof.
  intro Hr.
  destruct (Qeq_dec d 0) as [Hd|Hd].
  { now rewrite Base_engineer_features_zero_duration,
      Optimized_engineer_features_zero_duration. }
  destruct (Qlt_le_dec (-1) d) as [H1|H1];
    [destruct (Qlt_le_dec (-1) m) as [H2|H2];
     [destruct (Qlt_le_dec (-1) r) as [H3|H3]|]|];
    try (rewrite Base_engineer_features_domain_error,
           Optimized_engineer_features_domain_error by tauto;
         reflexivity).
  destruct (Base_engineer_features_defined math_log d m r Hd H1 H2 H3)
    as [f Hf].
  destruct (Optimized_engineer_features_defined math_log d m r Hd H1 H2 H3)
    as [g Hg].
  rewrite Hf, Hg. cbn [bind].
  rewrite (Base_cents_flag_raw math_log d m r f Hf),
    (Optimized_cents_flag_rounded math_log d m r g Hg).
  unfold Spec.bug_trigger.
  assert (Hk : r * 100 == inject_Z k).
  { rewrite Hr. unfold Qeq. simpl. lia. }
  destruct (mod_pos_whole _ k Hk) as [z Hz].
  rewrite (round_whole _ z Hz).
  change 49 with (inject_Z 49). change 99 with (inject_Z 99).
  now rewrite !(Qeqb_whole _ z _ Hz).
Qed.

(** ** The calibrator's helpers *)

Lemma sum_from_nonneg (l : list Q) (a : Q) :
  0 <= a -> Forall (fun x => 0 <= x) l -> 0 <= fold_left Qplus l a.
Proof.
  revert a. induction l as [|x l IH]; intros a Ha Hl; [exact Ha|].
  inversion Hl; subst. cbn. apply IH; [lra|assumption].
Qed.

Section EvaluateConfig.

Variable math_log : Q -> Q.

Lemma record_error_nonneg (system : Base.LegacyReimbursementSystem)
  (inp : Train.input) (target : Q) :
  0 <= Train.record_error math_log system inp target.
Proof.
  destruct inp as [[d m] r]. unfold Train.record_error.
  destruct (Base.calculate_reimbursement math_log system d m r).
  - apply Qabs_nonneg.
  - lra.
Qed.

(** X11.  [evaluate_config] fails in one way only, [StatisticsError] on an empty
    dataset; what it returns otherwise is not negative. *)
Theorem evaluate_config_outcome (config : ModelConfig)
  (inputs : list Train.input) (targets : list Q) :
  match Train.evaluate_config math_log config inputs targets with
  | Ok mae => inputs <> [] /\ targets <> [] /\ 0 <= mae
  | Raise StatisticsError => inputs = [] \/ targets = []
  | Raise _ => False
  end.
Proof.
  unfold Train.evaluate_config.
  destruct inputs as [|inp inputs']; [cbn; auto|].
  destruct targets as [|target targets']; [cbn; auto|].
  cbn [combine map Py.mean].
  repeat split; try discriminate.
  apply Qle_shift_div_l.
  - change 0 with (inject_Z 0). rewrite <- Zlt_Qlt. cbn [length]. lia.
  - rewrite Qmult_0_l. apply sum_from_nonneg; [lra|].
    constructor; [apply record_error_nonneg|].
    apply Forall_forall. intros x Hx. apply in_map_iff in Hx.
    destruct Hx as ([i t] & <- & _). apply record_error_nonneg.
Qed.

(** X12.  [zip] stops at the shorter list: records past the last target, or
    targets past the last record, are not evaluated. *)
Theorem evaluate_config_ignores_unpaired (config : ModelConfig)
  (inputs : list Train.input) (targets : list Q) :
  Train.evaluate_config math_log config inputs targets
  = Train.evaluate_config math_log config
      (firstn (Nat.min (length inputs) (length targets)) inputs)
      (firstn (Nat.min (length inputs) (length targets)) targets).
Proof.
  unfold Train.evaluate_config.
  rewrite <- combine_firstn, <- length_combine, firstn_all. reflexivity.
Qed.

End EvaluateConfig.

(** *** Sorting the cases *)

Lemma insert_case_perm (c : Train.case_error) (l : list Train.case_error) :
  Permutation (Train.insert_case c l) (c :: l).
Proof.
  induction l as [|h t IH]; cbn; [reflexivity|].
  destruct (Py.Qltb (Train.error c) (Train.error h)); [|reflexivity].
  rewrite IH. apply perm_swap.
Qed.

Lemma sort_by_error_reverse_perm (l : list Train.case_error) :
  Permutation (Train.sort_by_error_reverse l) l.
Proof.
  induction l as [|c l IH]; cbn; [reflexivity|].
  unfold Train.sort_by_error_reverse in IH.
  now rewrite insert_case_perm, IH.
Qed.

Lemma worse_first_error (a b : Train.case_error) :
  worse_first a b -> Train.error b <= Train.error a.
Proof. intros [H|[H _]]; lra. Qed.

Lemma insert_case_sorted (c : Train.case_error) (l : list Train.case_error) :
  (forall x, In x l -> (Train.case_idx c < Train.case_idx x)%nat) ->
  StronglySorted worse_first l ->
  StronglySorted worse_first (Train.insert_case c l).
Proof.
  intros Hidx Hl. induction Hl as [|h t Hs IH Hh]; cbn.
  - repeat constructor.
  - rewrite Forall_forall in Hh.
    destruct (Py.Qltb (Train.error c) (Train.error h)) eqn:E.
    + apply Qltb_true in E. constructor.
      * apply IH. intros x Hx. apply Hidx. now right.
      * apply Forall_forall. intros x Hx.
        apply (Permutation_in _ (insert_case_perm c t)) in Hx.
        destruct Hx as [<-|Hx]; [now left|now apply Hh].
    + apply Qltb_false in E.
      constructor; [constructor; [exact Hs|now apply Forall_forall]|].
      assert (Hch : worse_first c h).
      { destruct (Qlt_le_dec (Train.error h) (Train.error c)) as [Hlt|Hle].
        - now left.
        - right. split; [lra|]. apply Hidx. now left. }
      constructor; [exact Hch|].
      apply Forall_forall. intros x Hx.
      assert (Hx' := worse_first_error _ _ (Hh x Hx)).
      destruct (Qlt_le_dec (Train.error x) (Train.error c)) as [Hlt|Hle].
      * now left.
      * right. split; [lra|]. apply Hidx. now right.
Qed.

Lemma sort_by_error_reverse_sorted (l : list Train.case_error) :
  StronglySorted (fun a b => (Train.case_idx a < Train.case_idx b)%nat) l ->
  StronglySorted worse_first (Train.sort_by_error_reverse l).
Proof.
  induction 1 as [|c l Hs IH Hc]; cbn; [constructor|].
  apply insert_case_sorted; [|exact IH].
  intros x Hx. apply (Permutation_in _ (sort_by_error_reverse_perm l)) in Hx.
  rewrite Forall_forall in Hc. now apply Hc.
Qed.

Lemma sorted_app_inv (l1 l2 : list Train.case_error) :
  StronglySorted worse_first (l1 ++ l2) ->
  StronglySorted worse_first l1
  /\ forall a b, In a l1 -> In b l2 -> worse_first a b.
Proof.
  induction l1 as [|h t IH]; cbn; intro H.
  - split; [constructor|]. intros a b [].
  - inversion H as [|? ? Hs Hh]; subst. destruct (IH Hs) as [Ht Hcross].
    rewrite Forall_forall in Hh. split.
    + constructor; [exact Ht|]. apply Forall_forall.
      intros x Hx. apply Hh, in_or_app. now left.
    + intros a b [<-|Ha] Hb.
      * apply Hh, in_or_app. now right.
      * now apply Hcross.
Qed.

Lemma enumerate_from_spec {A : Type} (l : list A) (s i : nat) (x : A) :
  In (i, x) (Train.enumerate_from s l)
  <-> (s <= i)%nat /\ nth_error l (i - s) = Some x.
Proof.
  revert s. induction l as [|h t IH]; intro s; cbn.
  - split; [intros []|]. intros [_ H]. now destruct (i - s)%nat.
  - rewrite IH. split.
    + intros [H|[Hle H]].
      * injection H as <- <-. rewrite Nat.sub_diag. split; [lia|reflexivity].
      * split; [lia|]. replace (i - s)%nat with (S (i - S s)) by lia. exact H.
    + intros [Hle H]. destruct (Nat.eq_dec i s) as [->|Hne].
      * rewrite Nat.sub_diag in H. injection H as <-. now left.
      * right. split; [lia|].
        replace (i - s)%nat with (S (i - S s)) in H by lia. exact H.
Qed.

Lemma enumerate_from_NoDup {A : Type} (l : list A) (s : nat) :
  NoDup (map fst (Train.enumerate_from s l)).
Proof.
  revert s. induction l as [|h t IH]; intro s; cbn; constructor.
  - intro Hin. apply in_map_iff in Hin. destruct Hin as ([i x] & Hi & Hin).
    cbn in Hi. subst i. apply enumerate_from_spec in Hin. lia.
  - apply IH.
Qed.

Lemma enumerate_from_increasing {A : Type} (l : list A) (s : nat) :
  StronglySorted (fun a b : nat * A => (fst a < fst b)%nat)
    (Train.enumerate_from s l).
Proof.
  revert s. induction l as [|h t IH]; intro s; cbn; constructor.
  - apply IH.
  - apply Forall_forall. intros [i x] Hin.
    apply enumerate_from_spec in Hin. cbn. lia.
Qed.

Lemma map_case_idx_increasing {A : Type} (mk : nat * A -> Train.case_error)
  (l : list (nat * A)) :
  (forall i y, Train.case_idx (mk (i, y)) = i) ->
  StronglySorted (fun a b : nat * A => (fst a < fst b)%nat) l ->
  StronglySorted (fun a b => (Train.case_idx a < Train.case_idx b)%nat)
    (map mk l).
Proof.
  intros Hmk. induction 1 as [|[i y] l Hs IH Hl]; cbn [map]; constructor.
  - exact IH.
  - apply Forall_forall. intros c Hc. apply in_map_iff in Hc.
    destruct Hc as ([j z] & <- & Hin).
    rewrite Forall_forall in Hl. specialize (Hl _ Hin). cbn in Hl.
    now rewrite !Hmk.
Qed.

Section HighErrorCases.

Variable math_log : Q -> Q.

(** X13.  [analyze_high_error_cases] returns the ten worst cases, worst first:
    as many cases as there are records, up to ten; each returned case is a
    record of the dataset with its own index and its error under the given
    configuration; no record appears twice; along the list the errors do
    not increase and cases of equal error keep the order of the dataset;
    and no record left out has a larger error than a returned one. *)
Theorem analyze_high_error_cases_ten_worst (inputs : list Train.input)
  (targets : list Q) (config : ModelConfig) :
  length (Train.analyze_high_error_cases math_log inputs targets config)
  = Nat.min 10 (length (combine inputs targets))
  /\ NoDup (map Train.case_idx
              (Train.analyze_high_error_cases math_log inputs targets config))
  /\ (forall c,
        In c (Train.analyze_high_error_cases math_log inputs targets config) ->
        nth_error (combine inputs targets) (Train.case_idx c)
        = Some (Train.inp c, Train.target c)
        /\ Train.error c
           = Train.record_error math_log
               (Base.set_config Base.LegacyReimbursementSystem__init__ config)
               (Train.inp c) (Train.target c))
  /\ StronglySorted worse_first
       (Train.analyze_high_error_cases math_log inputs targets config)
  /\ (forall i x t c,
        nth_error (combine inputs targets) i = Some (x, t) ->
        ~ In i (map Train.case_idx
                  (Train.analyze_high_error_cases math_log inputs targets
                     config)) ->
        In c (Train.analyze_high_error_cases math_log inputs targets config) ->
        Train.record_error math_log
          (Base.set_config Base.LegacyReimbursementSystem__init__ config) x t
        <= Train.error c).
Proof.
  unfold Train.analyze_high_error_cases.
  set (system := Base.set_config Base.LegacyReimbursementSystem__init__ config).
  set (data := combine inputs targets).
  set (mk := fun '(i, (inp, target)) => _).
  set (cases := map mk (Train.enumerate_from 0 data)).
  set (sorted := Train.sort_by_error_reverse cases).
  assert (Hmk : forall i x t,
             Train.case_idx (mk (i, (x, t))) = i
             /\ Train.inp (mk (i, (x, t))) = x
             /\ Train.target (mk (i, (x, t))) = t
             /\ Train.error (mk (i, (x, t)))
                = Train.record_error math_log system x t).
  { intros i [[d m] r] t. subst mk. cbn.
    destruct (Base.calculate_reimbursement math_log system d m r);
      repeat split. }
  assert (Hidx : map Train.case_idx cases
                 = map fst (Train.enumerate_from 0 data)).
  { subst cases. rewrite map_map. apply map_ext.
    intros [i [x t]]. apply Hmk. }
  assert (Hperm : Permutation sorted cases)
    by apply sort_by_error_reverse_perm.
  assert (Hnodup : NoDup (map Train.case_idx sorted)).
  { apply (Permutation_NoDup (Permutation_map _ (Permutation_sym Hperm))).
    rewrite Hidx. apply enumerate_from_NoDup. }
  assert (Hsorted : StronglySorted worse_first sorted).
  { apply sort_by_error_reverse_sorted, map_case_idx_increasing.
    - intros i [x t]. apply Hmk.
    - apply enumerate_from_increasing. }
  rewrite <- (firstn_skipn 10 sorted) in Hnodup, Hsorted.
  destruct (sorted_app_inv _ _ Hsorted) as [Hfirst Hcross].
  rewrite map_app in Hnodup.
  assert (Hcase : forall c, In c sorted ->
             exists i x t,
               c = mk (i, (x, t)) /\ nth_error data i = Some (x, t)).
  { intros c Hc. apply (Permutation_in _ Hperm) in Hc.
    subst cases. apply in_map_iff in Hc.
    destruct Hc as ([i [x t]] & <- & Hin).
    apply enumerate_from_spec in Hin. rewrite Nat.sub_0_r in Hin.
    exists i, x, t. tauto. }
  repeat split.
  - rewrite length_firstn. f_equal.
    rewrite (Permutation_length Hperm). subst cases.
    rewrite length_map.
    clear. generalize 0%nat. induction data; intro; cbn; auto.
  - now apply NoDup_app_remove_r in Hnodup.
  - destruct (Hcase c) as (i & x & t & -> & Hi).
    { rewrite <- (firstn_skipn 10 sorted). apply in_or_app. now left. }
    destruct (Hmk i x t) as (-> & -> & -> & _). exact Hi.
  - destruct (Hcase c) as (i & x & t & -> & Hi).
    { rewrite <- (firstn_skipn 10 sorted). apply in_or_app. now left. }
    destruct (Hmk i x t) as (_ & -> & -> & ->). reflexivity.
  - exact Hfirst.
  - intros i x t c Hi Hout Hc.
    assert (Hin : In (mk (i, (x, t))) sorted).
    { apply (Permutation_in _ (Permutation_sym Hperm)).
      subst cases. apply in_map, enumerate_from_spec.
      rewrite Nat.sub_0_r. split; [lia|exact Hi]. }
    rewrite <- (firstn_skipn 10 sorted) in Hin.
    apply in_app_or in Hin. destruct Hin as [Hin|Hin].
    + exfalso. apply Hout. apply in_map_iff.
      exists (mk (i, (x, t))). split; [apply Hmk|exact Hin].
    + destruct (Hmk i x t) as (_ & _ & _ & He). rewrite <- He.
      exact (worse_first_error _ _ (Hcross c _ Hc Hin)).
Qed.

End HighErrorCases.

(** *** [optimize_parameters] *)

Lemma product_members (pools : list (list Q)) (p : list Q) :
  In p (Train.product pools) -> Forall2 (fun x pool => In x pool) p pools.
Proof.
  revert p. induction pools as [|pool rest IH]; intros p Hin.
  - destruct Hin as [<-|[]]. constructor.
  - cbn [Train.product] in Hin. apply in_flat_map in Hin.
    destruct Hin as (x & Hx & Hin). apply in_map_iff in Hin.
    destruct Hin as (q & <- & Hq). constructor; [exact Hx|now apply IH].
Qed.

Section OptimizeParameters.

Variable math_log : Q -> Q.

(** The loop that prints the ten worst cases stops at the first one of
    duration 0. *)
Lemma diagnostics_outcome (cases : list Train.case_error) :
  match Train.for_each
          (fun (_ : unit) (c : Train.case_error) =>
             let '(duration, miles, receipts) := Train.inp c in
             miles_per_day <- Py.div miles duration ;;
             receipts_per_day <- Py.div receipts duration ;;
             Ok tt)
          cases tt with
  | Ok _ => forall c, In c cases -> ~ fst (fst (Train.inp c)) == 0
  | Raise ZeroDivisionError =>
      exists c, In c cases /\ fst (fst (Train.inp c)) == 0
  | Raise _ => False
  end.
Proof.
  induction cases as [|c cases IH]; cbn [Train.for_each].
  - intros c [].
  - destruct (Train.inp c) as [[d m] r] eqn:Hc.
    unfold Py.div at 1 2.
    destruct (Qeq_bool d 0) eqn:Hd; cbn [bind].
    + exists c. rewrite Hc. split; [now left|]. now apply Qeq_bool_eq.
    + apply Qeq_bool_neq in Hd.
      destruct (Train.for_each _ cases tt) as [u|[]]; try exact IH.
      * intros c' [<-|Hin]; [now rewrite Hc|now apply IH].
      * destruct IH as (c' & Hin & Hz). exists c'. split; [now right|exact Hz].
Qed.

(** X14.  How [optimize_parameters] ends.  It raises [StatisticsError] on an
    empty dataset and [ZeroDivisionError] when one of the ten worst cases
    of the baseline configuration has duration 0, and nothing else; when
    it returns, neither is the case. *)
Theorem optimize_parameters_outcome (inputs : list Train.input)
  (targets : list Q) :
  match Train.optimize_parameters math_log inputs targets with
  | Ok _ =>
      combine inputs targets <> []
      /\ forall c,
           In c (Train.analyze_high_error_cases math_log inputs targets
                   Base.ModelConfig__init__) ->
           ~ fst (fst (Train.inp c)) == 0
  | Raise StatisticsError => combine inputs targets = []
  | Raise ZeroDivisionError =>
      combine inputs targets <> []
      /\ exists c,
           In c (Train.analyze_high_error_cases math_log inputs targets
                   Base.ModelConfig__init__)
           /\ fst (fst (Train.inp c)) == 0
  | Raise _ => False
  end.
Proof.
  destruct (combine inputs targets) as [|x data] eqn:Hdata.
  { unfold Train.optimize_parameters, Train.evaluate_config.
    now rewrite Hdata. }
  assert (Hne : combine inputs targets <> []) by now rewrite Hdata.
  unfold Train.optimize_parameters.
  destruct (evaluate_config_total math_log inputs targets
              Base.ModelConfig__init__ Hne) as [e ->].
  cbn [bind].
  pose proof (diagnostics_outcome
                (Train.analyze_high_error_cases math_log inputs targets
                   Base.ModelConfig__init__)) as Hdiag.
  destruct (Train.for_each _ _ tt) as [u|[]]; cbn [bind]; try contradiction.
  2:{ split; [discriminate|exact Hdiag]. }
  destruct (sweep_retained math_log inputs targets Hne) as (st & -> & Hret).
  cbn [bind].
  destruct Hret as [[Hnil _]|(i & p & cfg & b & Hi & _ & _ & -> & _)];
    [discriminate Hnil|].
  cbn [Train.best_params Train.best_config].
  apply nth_error_In, product_length in Hi.
  destruct p as [|? [|? [|? [|? [|? [|]]]]]]; try discriminate Hi.
  cbn. split; [discriminate|exact Hdiag].
Qed.

(** X15.  What [optimize_parameters] can return: the configuration of
    [ModelConfig.__init__] with the five swept attributes replaced by
    values of their ranges, and nothing else changed.  The baseline itself
    is never returned, its per-diem rate not being in the grid. *)
Theorem optimize_parameters_returns_grid_config (inputs : list Train.input)
  (targets : list Q) :
  match Train.optimize_parameters math_log inputs targets with
  | Ok config =>
      exists p0 p1 p2 p3 p4 : Q,
        In p0 [1.0; 1.1; 1.2; 1.3; 1.4; 1.5]
        /\ In p1 [1.02; 1.03; 1.05; 1.07; 1.10]
        /\ In p2 [1.5; 2.0; 2.5; 3.0; 3.5]
        /\ In p3 [45; 50; 55; 60]
        /\ In p4 [0.25; 0.30; 0.35; 0.40]
        /\ config = {|
             base_per_diem := p3;
             mileage_rates := [0.78707; 0.45114; p4];
             receipt_rates := [0.39998; 0.30454; 0.43686; 0.12188];
             cluster_multipliers :=
               [1.14757; 1.11176; 1.20275; p0; 1.07688; 1.21401];
             vacation_bonus_multiplier := 1.04678;
             vacation_base_multiplier := 1.07235;
             five_day_multiplier := 1.08250;
             receipt_threshold_multiplier := 1.19667;
             efficiency_threshold_multiplier := p1;
             miles_threshold_multiplier := 1.02133;
             interaction_coeff := 0.00055520;
             log_bonus_coeff := p2;
             bug_base_bonus := 20.69937;
             bug_multiplier := 0.00617
           |}
        /\ ~ base_per_diem config == base_per_diem Base.ModelConfig__init__
  | Raise _ => True
  end.
Proof.
  destruct (Train.optimize_parameters math_log inputs targets)
    as [config|] eqn:Hopt; [|exact I].
  destruct (optimize_parameters_returns_retained math_log inputs targets
              config Hopt) as (st & Hst & Hbest).
  assert (Hne : combine inputs targets <> []).
  { intro Hnil. unfold Train.optimize_parameters, Train.evaluate_config in Hopt.
    rewrite Hnil in Hopt. discriminate Hopt. }
  destruct (sweep_retained math_log inputs targets Hne) as (st' & Hst' & Hret).
  rewrite Hst in Hst'. injection Hst' as <-.
  destruct Hret as [[Hnil _]|(i & p & cfg & b & Hi & Hcfg & _ & -> & _)];
    [discriminate Hnil|].
  injection Hbest as ->.
  apply nth_error_In, product_members in Hi.
  unfold Train.param_ranges in Hi.
  repeat match goal with
         | H : Forall2 _ _ (_ :: _) |- _ => inversion H; subst; clear H
         | H : Forall2 _ _ [] |- _ => inversion H; subst; clear H
         end.
  cbn in Hcfg. injection Hcfg as <-.
  do 5 eexists. repeat split; try eassumption.
  cbn [base_per_diem Base.ModelConfig__init__].
  match goal with
  | H : In ?x [45; 50; 55; 60] |- ~ ?x == _ =>
      destruct H as [<-|[<-|[<-|[<-|[]]]]]; intro Heq; discriminate Heq
  end.
Qed.

End OptimizeParameters.


(** ** The floor of the clamp *)

Section BaseFloor.

Variable math_log : Q -> Q.

Abbreviation system := Base.LegacyReimbursementSystem__init__ (only parsing).







End BaseFloor.

Section OptimizedFloor.

Variable math_log : Q -> Q.

Abbreviation system :=
  Optimized.LegacyReimbursementSystem__init__ (only parsing).







End OptimizedFloor.

(** ** The properties, for both files *)





(** X4.  Of [math.log] the amount uses one value only, the logarithm of
    [miles_traveled + 1]: position 32 of the feature vector, which
    [calculate_reimbursement] reads under the name [log_receipts], holds
    [log_miles_traveled].  Two logarithm functions that agree there give
    the same outcome, in both files and for every system and input. *)
Theorem amount_uses_log_of_miles_only (log1 log2 : Q -> Q)
  (base_self : Base.LegacyReimbursementSystem)
  (optimized_self : Optimized.LegacyReimbursementSystem) (d m r : Q) :
  log1 (m + 1) = log2 (m + 1) ->
  Base.calculate_reimbursement log1 base_self d m r
  = Base.calculate_reimbursement log2 base_self d m r
  /\
  Optimized.calculate_reimbursement log1 optimized_self d m r
  = Optimized.calculate_reimbursement log2 optimized_self d m r.
Proof.
  intro Hlog. split.
  - now apply Base_amount_uses_log_of_miles_only.
  - now apply Optimized_amount_uses_log_of_miles_only.
Qed.

Lemma amount_uses_log_of_miles_only_witness :
  Base.calculate_reimbursement Py.ln_approx
    Base.LegacyReimbursementSystem__init__ 5 900 1200
  = Base.calculate_reimbursement (fun _ => Py.ln_approx 901)
      Base.LegacyReimbursementSystem__init__ 5 900 1200
  /\
  Optimized.calculate_reimbursement Py.ln_approx
    Optimized.LegacyReimbursementSystem__init__ 5 900 1200
  = Optimized.calculate_reimbursement (fun _ => Py.ln_approx 901)
      Optimized.LegacyReimbursementSystem__init__ 5 900 1200.
Proof.
  apply (amount_uses_log_of_miles_only Py.ln_approx
           (fun _ => Py.ln_approx 901)
           Base.LegacyReimbursementSystem__init__
           Optimized.LegacyReimbursementSystem__init__ 5 900 1200).
  vm_compute. reflexivity.
Defined.



Lemma cents_flags_agree_on_whole_cents_witness :
  (f <- Base.engineer_features Py.ln_approx 5 900 49.49 ;; Base.feature f 11)
  = (f <- Optimized.engineer_features Py.ln_approx 5 900 49.49 ;;
     Optimized.feature f 11).
Proof.
  apply (cents_flags_agree_on_whole_cents Py.ln_approx 5 900 49.49 4949).
  reflexivity.
Defined.



(** ** Whole cents on binary64 floats *)

Lemma all_from_spec (n : nat) (k i : Z) :
  WholeCents.all_from k n = true -> (k <= i < k + Z.of_nat n)%Z ->
  WholeCents.flags_as_expected i = true.
Proof.
  revert k. induction n as [|n IH]; intros k H Hi; [lia|].
  cbn [WholeCents.all_from] in H.
  apply andb_true_iff in H. destruct H as [Hk Hrest].
  destruct (Z.eq_dec i k) as [->|Hne]; [exact Hk|].
  apply (IH (k + 1)%Z); [exact Hrest|lia].
Qed.

Lemma all_below_50000 :
  WholeCents.all_from 0 (Z.to_nat 50000) = true.
Proof. vm_cast_no_check (eq_refl true). Qed.

(** X17.  On binary64 floats, for every amount of receipts of a whole
    number of cents below 500.00: [calculate_reimbursement_optimized.py]
    sets the flag exactly when the cents are 49 or 99, and
    [calculate_reimbursement.py] never sets it otherwise (its raw
    comparison can only miss). *)
Theorem whole_cents_flags_on_binary64 (k : Z) :
  (0 <= k < 50000)%Z ->
  Binary64.optimized_receipt_ends_49_99 (WholeCents.amount k)
  = Some (WholeCents.ends_49_99 k)
  /\ exists b : bool,
       Binary64.base_receipt_ends_49_99 (WholeCents.amount k) = Some b
       /\ (b = true -> WholeCents.ends_49_99 k = true).
Proof.
  intros Hk.
  assert (H := all_from_spec _ 0 k all_below_50000).
  rewrite Z2Nat.id in H by lia. specialize (H ltac:(lia)).
  unfold WholeCents.flags_as_expected in H.
  destruct (Binary64.optimized_receipt_ends_49_99 _) as [o|];
    [|discriminate H].
  destruct (Binary64.base_receipt_ends_49_99 _) as [b|]; [|discriminate H].
  apply andb_true_iff in H. destruct H as [Ho Hb].
  apply Bool.eqb_prop in Ho. subst o. split; [reflexivity|].
  exists b. split; [reflexivity|].
  intros ->. exact Hb.
Qed.

Lemma whole_cents_flags_on_binary64_witness :
  Binary64.optimized_receipt_ends_49_99 (WholeCents.amount 1999)
  = Some (WholeCents.ends_49_99 1999)
  /\ exists b : bool,
       Binary64.base_receipt_ends_49_99 (WholeCents.amount 1999) = Some b
       /\ (b = true -> WholeCents.ends_49_99 1999 = true).
Proof.
  apply (whole_cents_flags_on_binary64 1999). lia.
Defined.
